(** * Breast-cancer diagnosis API: the serving layer of [src/api/app.py]

    A shallow embedding of the Flask application: the start-up artifact load
    ([load_model_artifacts]), the request model ([PredictionInput] with its
    [validate_features] and [to_numpy]) and the two routes ([health_check],
    [predict]), followed by the properties of the service.

    Python exceptions are carried by an error monad, the module globals
    ([model], [scaler], [model_metadata]) by explicit state passing.
    Python floats are IEEE binary64 numbers, taken from the Standard
    Library's [SpecFloat].  Calls to [logger] take no part in the control
    flow or in any response and are left out. *)

From Stdlib Require Import ZArith List String Ascii Bool Lia.
From Stdlib Require Import DecimalString.
From Stdlib Require Import Floats.SpecFloat.
Import ListNotations.

Local Open Scope string_scope.
Local Open Scope Z_scope.

Set Warnings "-register-all".

(** ** Python floats *)

Module Float64.

Definition prec : Z := 53.
Definition emax : Z := 1024.

Definition float := spec_float.

(** The values a Python [float] can hold. *)
Definition is_float64 (x : float) : bool := valid_binary prec emax x.

Definition zero : float := S754_zero false.
Definition one : float := SFone prec emax.
Definition nan : float := S754_nan.
Definition inf : float := S754_infinity false.

(** [math.isnan], [numpy.isnan] *)
Definition isnan (x : float) : bool :=
  match x with S754_nan => true | _ => false end.

(** [math.isinf], [numpy.isinf] *)
Definition isinf (x : float) : bool :=
  match x with S754_infinity _ => true | _ => false end.

Definition isfinite (x : float) : bool := negb (isnan x) && negb (isinf x).

(** [x <= y] on floats *)
Definition leb (x y : float) : bool := SFleb x y.

(** [0 <= x <= 1] *)
Definition in_unit (x : float) : bool := leb zero x && leb x one.

(** [float(n)] for a Python [int]: the nearest binary64, ties to even
    (an infinity stands for the [OverflowError] of an [int] too large). *)
Definition of_Z (n : Z) : float := binary_normalize prec emax n 0 false.

(** The integer nearest to [a / b], ties to the even one ([0 < b]). *)
Definition round_half_even (a b : Z) : Z :=
  let q := a / b in
  match (2 * (a mod b) ?= b) with
  | Lt => q
  | Gt => q + 1
  | Eq => if Z.even q then q else q + 1
  end.

(** The integer nearest to [m * 2^e * 10^4], ties to even. *)
Definition scaled4 (m : positive) (e : Z) : Z :=
  if 0 <=? e then Zpos m * 2 ^ e * 10000
  else round_half_even (Zpos m * 10000) (2 ^ (- e)).

(** The binary64 nearest to [(-1)^s * n / 10^4]: what reading a decimal
    numeral with four digits after the point gives. *)
Definition decimal4 (s : bool) (n : Z) : float :=
  match n with
  | Zpos p => SFdiv prec emax (S754_finite s p 0) (S754_finite false 10000 0)
  | _ => S754_zero s
  end.

(** [round(x, 4)] on a float: the exact value is rounded half-to-even to
    four decimals and the decimal is read back as a float; NaN and the
    infinities round to themselves. *)
Definition round4 (x : float) : float :=
  match x with
  | S754_finite s m e => decimal4 s (scaled4 m e)
  | _ => x
  end.



(** [n == x] for a Python [int] [n] and a float [x]: exact comparison
    of the two values. *)
Definition eqb_Z (n : Z) (x : float) : bool :=
  match x with
  | S754_zero _ => n =? 0
  | S754_finite s m e =>
      let v := if s then Zneg m else Zpos m in
      if 0 <=? e then n =? v * 2 ^ e else n * 2 ^ (- e) =? v
  | _ => false
  end.

End Float64.

Import Float64.

(** ** Python values and exceptions *)

(** What [json.load] and [request.get_json] hand back: [JNull] is [None],
    [JInt] a Python [int], [JFloat] a [float] (the parser accepts [NaN],
    [Infinity] and [-Infinity]), [JArr] a [list] and [JObj] a [dict] with
    string keys, the first binding of a key being the one in force. *)
Inductive json : Type :=
| JNull
| JBool (b : bool)
| JInt (n : Z)
| JFloat (x : float)
| JStr (s : string)
| JArr (items : list json)
| JObj (fields : list (string * json)).

(** [bool(v)]: [None], [False], zero, the empty string, list and dict
    are false. *)
Definition truthy (v : json) : bool :=
  match v with
  | JNull => false
  | JBool b => b
  | JInt n => negb (n =? 0)
  | JFloat (S754_zero _) => false
  | JFloat _ => true
  | JStr s => negb (String.eqb s "")
  | JArr items => match items with [] => false | _ => true end
  | JObj fields => match fields with [] => false | _ => true end
  end.

(** [d[k]] on the bindings of a dict *)
Fixpoint lookup (k : string) (fields : list (string * json)) : option json :=
  match fields with
  | [] => None
  | (k', v) :: rest => if String.eqb k k' then Some v else lookup k rest
  end.

(** [str(n)] for an [int] *)
Definition str_int (n : Z) : string := NilZero.string_of_int (Z.to_int n).

(** [n == v] for an [int] [n]: a bool counts as 0 or 1, a float is compared
    by value, nothing else equals an int. *)
Definition int_eq (n : Z) (v : json) : bool :=
  match v with
  | JInt m => n =? m
  | JBool b => n =? (if b then 1 else 0)
  | JFloat x => eqb_Z n x
  | _ => false
  end.

(** One entry of pydantic's [ValidationError.errors()]: where in the input
    and what kind of failure. *)
Inductive loc_item : Type :=
| LocField (name : string)
| LocIndex (i : nat).

Inductive error_kind : Type :=
| Missing        (* the field is required *)
| ListType       (* the value is not a list *)
| FloatType.     (* the item is not a number *)

Record error_detail : Type := {
  err_kind : error_kind;
  err_loc : list loc_item;
  err_input : json
}.

(** The exceptions of class [Exception] that the service meets. *)
Inductive exn : Type :=
| FileNotFoundError
| ValidationError (errors : list error_detail)  (* pydantic; a ValueError *)
| ValueError (msg : string)          (* any other ValueError, [str(e) = msg] *)
| TypeError
| AttributeError
| IndexError
| HTTPException (code : Z)           (* werkzeug: raised for the framework *)
| OtherError (msg : string).

Inductive res (A : Type) : Type :=
| Ok (a : A)
| Raise (e : exn).

Arguments Ok {A} a.
Arguments Raise {A} e.

Definition bind {A B : Type} (c : res A) (k : A -> res B) : res B :=
  match c with
  | Ok a => k a
  | Raise e => Raise e
  end.

Notation "x <- c ;; k" := (bind c (fun x => k))
  (at level 61, c at next level, right associativity).
Notation "c ;;; k" := (bind c (fun _ => k))
  (at level 61, right associativity).

(** [seq[i]] on a list *)
Definition index {A : Type} (l : list A) (i : nat) : res A :=
  match nth_error l i with
  | Some a => Ok a
  | None => Raise IndexError
  end.

(** [d.get(k, default)]: only a dict has the method. *)
Definition get (d : json) (k : string) (default : json) : res json :=
  match d with
  | JObj fields =>
      Ok (match lookup k fields with Some v => v | None => default end)
  | _ => Raise AttributeError
  end.

(** ** Artifacts and module globals *)

Definition matrix := list (list float).

(** The object in [scaler.joblib], seen through the one method used. *)
Record Scaler : Type := {
  transform : matrix -> res matrix
}.

(** The object in [breast_cancer_model.joblib]: [predict] gives one label
    per row, [predict_proba] one row of class probabilities per row. *)
Record Classifier : Type := {
  predict_labels : matrix -> res (list Z);
  predict_proba : matrix -> res (list (list float))
}.

(** [model], [scaler], [model_metadata] *)
Record Globals : Type := {
  model : option Classifier;
  scaler : option Scaler;
  model_metadata : json
}.

Definition initial_globals : Globals :=
  {| model := None; scaler := None; model_metadata := JObj [] |}.

(** What reading a file gives: the object, or the exception raised. *)
Definition read (A : Type) := res A.

(** The three artifact paths at start-up.  [metadata_file] is [None] when
    [os.path.exists(METADATA_PATH)] is false, else what [open] and
    [json.load] give. *)
Record Disk : Type := {
  model_file : read Classifier;
  scaler_file : read Scaler;
  metadata_file : option (read json)
}.

(** State and exceptions together, for code that assigns globals. *)
Definition M (A : Type) : Type := Globals -> res A * Globals.

Definition ret {A : Type} (a : A) : M A := fun g => (Ok a, g).

Definition lift {A : Type} (c : res A) : M A := fun g => (c, g).

Definition bindM {A B : Type} (c : M A) (k : A -> M B) : M B :=
  fun g => match c g with
           | (Ok a, g') => k a g'
           | (Raise e, g') => (Raise e, g')
           end.

Definition read_globals : M Globals := fun g => (Ok g, g).

Definition set_model (m : Classifier) : M unit :=
  fun g => (Ok tt, {| model := Some m; scaler := scaler g;
                      model_metadata := model_metadata g |}).

Definition set_scaler (s : Scaler) : M unit :=
  fun g => (Ok tt, {| model := model g; scaler := Some s;
                      model_metadata := model_metadata g |}).

Definition set_model_metadata (j : json) : M unit :=
  fun g => (Ok tt, {| model := model g; scaler := scaler g;
                      model_metadata := j |}).

Notation "x <~ c ;; k" := (bindM c (fun x => k))
  (at level 61, c at next level, right associativity).
Notation "c ;;~ k" := (bindM c (fun _ => k))
  (at level 61, right associativity).

(** [try: body  except Exception: handler] *)
Definition try_except {A : Type} (body : M A) (handler : exn -> M A) : M A :=
  fun g => match body g with
           | (Ok a, g') => (Ok a, g')
           | (Raise e, g') => handler e g'
           end.

(** The body of the [try] in [load_model_artifacts]. *)
Definition load_body (d : Disk) : M bool :=
  m <~ lift (model_file d) ;;
  set_model m ;;~
  s <~ lift (scaler_file d) ;;
  set_scaler s ;;~
  match metadata_file d with
  | Some f => j <~ lift f ;; set_model_metadata j
  | None => ret tt
  end ;;~
  g <~ read_globals ;;
  lift (get (model_metadata g) "accuracy" (JStr "N/A")) ;;~
  ret true.

Definition load_model_artifacts (d : Disk) : M bool :=
  try_except (load_body d)
    (fun e => match e with
              | FileNotFoundError => ret false
              | _ => ret false
              end).

(** The process after the module body has run: the globals and
    [model_loaded]. *)
Record ServiceState : Type := {
  globals : Globals;
  model_loaded : bool
}.

(** The assignment [model_loaded = load_model_artifacts()] that runs when
    the module is imported; an exception leaving the call would end the
    import. *)
Definition boot (d : Disk) : res ServiceState :=
  match load_model_artifacts d initial_globals with
  | (Ok b, g) => Ok {| globals := g; model_loaded := b |}
  | (Raise e, _) => Raise e
  end.

(** ** The request model and the routes *)

(** [class PredictionInput(BaseModel)] with its one field. *)
Record PredictionInput : Type := {
  features : list float
}.

(** [len(l)] *)
Definition len {A : Type} (l : list A) : Z := Z.of_nat (List.length l).

(** What a route hands to the framework: status code and JSON body. *)
Definition response : Type := Z * json.

(** What [request.get_json()] does with the body of the request: it
    returns the parsed document ([None] for the document [null] and, in
    the framework versions that do so, for a request that does not announce
    JSON), or it raises the framework's own HTTP error (bad request for a
    body that does not parse, unsupported media type). *)
Inductive body_outcome : Type :=
| Parsed (json_data : json)
| Refused (e : exn).

Definition get_json (rq : body_outcome) : res json :=
  match rq with
  | Parsed v => Ok v
  | Refused e => Raise e
  end.

Section Service.

(** Three library behaviours the application relies on without fixing
    them: what pydantic's lax mode makes of a value that is no JSON
    number when a [float] is wanted (strings, booleans, integers beyond
    the float range), what [str()] prints for a value that is no int,
    bool, string or [None], and how pydantic renders one error of
    [e.errors()] as a dict. *)
Variable lax_float : json -> option float.
Variable str_value : json -> string.
Variable error_dict : error_detail -> json.

(** The value inserted by an f-string, [str(v)]. *)
Definition str (v : json) : string :=
  match v with
  | JInt n => str_int n
  | JBool true => "True"
  | JBool false => "False"
  | JNull => "None"
  | JStr s => s
  | _ => str_value v
  end.

(** pydantic on one item of a [List[float]]. *)
Definition validate_float (v : json) : option float :=
  match v with
  | JFloat x => Some x
  | JInt n => if isfinite (of_Z n) then Some (of_Z n) else lax_float v
  | JNull | JArr _ | JObj _ => None
  | JBool _ | JStr _ => lax_float v
  end.

(** pydantic on the items of the list, from index [i] on: the floats of
    the items accepted and one error for each item refused. *)
Fixpoint validate_items (i : nat) (items : list json)
  : list float * list error_detail :=
  match items with
  | [] => ([], [])
  | v :: rest =>
      let (xs, errs) := validate_items (S i) rest in
      match validate_float v with
      | Some x => (x :: xs, errs)
      | None =>
          (xs, {| err_kind := FloatType;
                  err_loc := [LocField "features"; LocIndex i];
                  err_input := v |} :: errs)
      end
  end.

(** The constructor call on the unpacked [json_data]: the unpacking
    wants a mapping, then pydantic checks the field
    [features: List[float]]; other keys are ignored. *)
Definition PredictionInput_init (json_data : json) : res PredictionInput :=
  match json_data with
  | JObj fields =>
      match lookup "features" fields with
      | None =>
          Raise (ValidationError
                   [{| err_kind := Missing;
                       err_loc := [LocField "features"];
                       err_input := json_data |}])
      | Some (JArr items) =>
          match validate_items 0 items with
          | (xs, []) => Ok {| features := xs |}
          | (_, errs) => Raise (ValidationError errs)
          end
      | Some v =>
          Raise (ValidationError
                   [{| err_kind := ListType;
                       err_loc := [LocField "features"];
                       err_input := v |}])
      end
  | _ => Raise TypeError
  end.

Definition length_message (expected_count : json) (received : Z) : string :=
  "Se esperaban " ++ str expected_count ++ " features, recibidas "
    ++ str_int received.

Definition invalid_message : string := "Features contienen valores inválidos".

(** [PredictionInput.validate_features] *)
Definition validate_features (g : Globals) (self : PredictionInput)
  : res unit :=
  expected_count <- get (model_metadata g) "feature_count" (JInt 30) ;;
  if negb (int_eq (len (features self)) expected_count) then
    Raise (ValueError (length_message expected_count (len (features self))))
  else
    let features_array := features self in
    if existsb isnan features_array || existsb isinf features_array then
      Raise (ValueError invalid_message)
    else Ok tt.

(** [PredictionInput.to_numpy]: one row. *)
Definition to_numpy (self : PredictionInput) : matrix := [features self].

(** A method call on a global that may still be [None]. *)
Definition call {T A B : Type} (obj : option T) (method : T -> A -> res B)
    (arg : A) : res B :=
  match obj with
  | Some o => method o arg
  | None => Raise AttributeError
  end.

(** [health_check], route [GET /] *)
Definition health_check (st : ServiceState) : res response :=
  accuracy <- get (model_metadata (globals st)) "accuracy" (JStr "N/A") ;;
  let status :=
    JObj [("status", JStr (if model_loaded st then "ok" else "degraded"));
          ("message", JStr "API de diagnóstico de cáncer de mama");
          ("model_loaded", JBool (model_loaded st));
          ("model_accuracy", accuracy)] in
  Ok (if model_loaded st then 200 else 503, status).

Definition label_name (label : Z) : string :=
  if label =? 1 then "Maligno" else "Benigno".

(** The body of the [try] in [predict]. *)
Definition predict_body (st : ServiceState) (json_data : json)
  : res response :=
  let g := globals st in
  input_data <- PredictionInput_init json_data ;;
  validate_features g input_data ;;;
  let data_to_predict := to_numpy input_data in
  data_scaled <- call (scaler g) transform data_to_predict ;;
  prediction <- call (model g) predict_labels data_scaled ;;
  prediction_proba <- call (model g) predict_proba data_scaled ;;
  label <- index prediction 0 ;;
  row <- index prediction_proba 0 ;;
  p0 <- index row 0 ;;
  p1 <- index row 1 ;;
  let result :=
    JObj [("prediction", JStr (label_name label));
          ("confidence", JObj [("Benigno", JFloat (round4 p0));
                               ("Maligno", JFloat (round4 p1))]);
          ("prediction_numeric", JInt label)] in
  Ok (200, result).

(** [predict], route [POST /predict] *)
Definition predict (st : ServiceState) (rq : body_outcome) : res response :=
  if negb (model_loaded st) then
    Ok (503, JObj [("error", JStr "Modelo no disponible")])
  else
    json_data <- get_json rq ;;
    if negb (truthy json_data) then
      Ok (400, JObj [("error", JStr "No se proporcionaron datos JSON")])
    else
      match predict_body st json_data with
      | Ok r => Ok r
      | Raise (ValidationError errors) =>
          Ok (422, JObj [("error", JStr "Datos inválidos");
                         ("details", JArr (map error_dict errors))])
      | Raise (ValueError msg) => Ok (400, JObj [("error", JStr msg)])
      | Raise _ => Ok (500, JObj [("error", JStr "Error interno del servidor")])
      end.

End Service.

(** ** Sample artifacts and requests *)

Module Sample.

(** 0.25 and 0.75 *)
Definition quarter : float := S754_finite false 4503599627370496 (-54).
Definition three_quarters : float := S754_finite false 6755399441055744 (-53).

Definition the_scaler : Scaler := {| transform := fun X => Ok X |}.

Definition the_classifier : Classifier :=
  {| predict_labels := fun X => Ok (map (fun _ => 1) X);
     predict_proba := fun X => Ok (map (fun _ => [quarter; three_quarters]) X) |}.

Definition metadata : json :=
  JObj [("accuracy", JFloat three_quarters); ("feature_count", JInt 2)].

(** All three files in place. *)
Definition disk : Disk :=
  {| model_file := Ok the_classifier;
     scaler_file := Ok the_scaler;
     metadata_file := Some (Ok metadata) |}.

(** No metadata file. *)
Definition disk_no_metadata : Disk :=
  {| model_file := Ok the_classifier;
     scaler_file := Ok the_scaler;
     metadata_file := None |}.

(** No classifier file. *)
Definition disk_no_model : Disk :=
  {| model_file := Raise FileNotFoundError;
     scaler_file := Ok the_scaler;
     metadata_file := Some (Ok metadata) |}.

(** A metadata file that is no JSON. *)
Definition disk_bad_metadata : Disk :=
  {| model_file := Ok the_classifier;
     scaler_file := Ok the_scaler;
     metadata_file := Some (Raise (ValueError "Expecting value")) |}.

(** A metadata file holding the JSON document [[]]. *)
Definition disk_list_metadata : Disk :=
  {| model_file := Ok the_classifier;
     scaler_file := Ok the_scaler;
     metadata_file := Some (Ok (JArr [])) |}.

(** The service as it stands after booting from [disk_no_metadata]. *)
Definition state_no_metadata : ServiceState :=
  {| globals := {| model := Some the_classifier; scaler := Some the_scaler;
                   model_metadata := JObj [] |};
     model_loaded := true |}.

Definition lax_float (v : json) : option float := None.
Definition str_value (v : json) : string := "<value>".
Definition error_dict (e : error_detail) : json :=
  JObj [("input", err_input e)].

Definition payload (items : list json) : list (string * json) :=
  [("features", JArr items)].

(** The service as it stands after booting from [disk]. *)
Definition state : ServiceState :=
  {| globals := {| model := Some the_classifier; scaler := Some the_scaler;
                   model_metadata := metadata |};
     model_loaded := true |}.

End Sample.

(** ** The artifact files *)

Definition deserializes {A : Type} (f : read A) : Prop := exists a, f = Ok a.

(** The metadata file is absent, or it reads as a JSON object. *)
Definition metadata_usable (d : Disk) : Prop :=
  match metadata_file d with
  | None => True
  | Some f => exists fields, f = Ok (JObj fields)
  end.

Definition is_dict (v : json) : Prop := exists fields, v = JObj fields.

(** ** Vocabulary of the properties *)

(** A field of a JSON body. *)
Definition body_field (k : string) (body : json) : option json :=
  match body with
  | JObj fields => lookup k fields
  | _ => None
  end.

Definition error_body (msg : string) : json := JObj [("error", JStr msg)].

(** A probability as a classifier reports it: a float in [0, 1]. *)
Definition probability (p : float) : Prop :=
  is_float64 p = true /\ in_unit p = true.

(** The classifier only ever predicts the two classes of the training
    labels ([B] is 0, [M] is 1). *)
Definition binary_labels (clf : Classifier) : Prop :=
  forall X labels, predict_labels clf X = Ok labels ->
                   Forall (fun l => l = 0 \/ l = 1) labels.

(** Every probability the classifier reports lies in [0, 1]. *)
Definition unit_probabilities (clf : Classifier) : Prop :=
  forall X rows, predict_proba clf X = Ok rows ->
                 Forall (Forall probability) rows.


(** The feature count in force: the metadata value, else 30. *)
Definition expected_count (st : ServiceState) (expected : json) : Prop :=
  get (model_metadata (globals st)) "feature_count" (JInt 30) = Ok expected.

(** Some value of the vector is NaN or an infinity. *)
Definition has_invalid (xs : list float) : bool :=
  existsb isnan xs || existsb isinf xs.

Section Payloads.

Variable lax_float : json -> option float.

(** The payload carries the feature vector [xs]: its [features] field is
    a list whose items the schema reads as the floats [xs]. *)
Definition has_features (fields : list (string * json)) (xs : list float)
  : Prop :=
  exists items, lookup "features" fields = Some (JArr items) /\
                Forall2 (fun v x => validate_float lax_float v = Some x)
                        items xs.

(** The payload does not match the schema [features: List[float]]: the
    field is missing, or is no list, or has an item that is no float. *)
Definition off_schema (fields : list (string * json)) : Prop :=
  match lookup "features" fields with
  | None => True
  | Some (JArr items) =>
      exists v, In v items /\ validate_float lax_float v = None
  | Some _ => True
  end.

End Payloads.

(** An error entry that names the field it is about. *)
Definition field_error (e : error_detail) : Prop :=
  exists rest, err_loc e = LocField "features" :: rest.

(** ** The training side: data frames, [src/model/train.py] and
    [src/data/load_data.py] *)

(** The part of pandas the two scripts use.  A frame is its index length
    and its columns in order, each a name and the cells of the column;
    [read_csv] gives frames whose column names are distinct. *)
Module Pandas.

Inductive cell : Type :=
| Null                      (* NaN or None: a missing value *)
| Int (n : Z)
| Num (x : float)
| Str (s : string).

Record DataFrame : Type := {
  index_len : nat;
  columns : list (string * list cell)
}.

(** [df.columns] *)
Definition names (df : DataFrame) : list string := map fst (columns df).

(** The frames pandas builds from a CSV file: the column names are
    distinct and every column has one cell per index entry. *)
Definition well_formed (df : DataFrame) : Prop :=
  NoDup (names df) /\
  Forall (fun c => List.length (snd c) = index_len df) (columns df).

(** [df.empty]: one of the two axes has length 0. *)
Definition empty (df : DataFrame) : bool :=
  (index_len df =? 0)%nat
  || match columns df with [] => true | _ => false end.

(** [name in df.columns] *)
Definition has_column (name : string) (df : DataFrame) : bool :=
  existsb (String.eqb name) (names df).

Definition listed (labels : list string) (name : string) : bool :=
  existsb (String.eqb name) labels.

(** [df.drop(columns=labels, errors='ignore')] *)
Definition drop_ignore (labels : list string) (df : DataFrame) : DataFrame :=
  {| index_len := index_len df;
     columns := filter (fun c => negb (listed labels (fst c))) (columns df) |}.

(** [df.drop(label, axis=1)]: a label that is no column is a [KeyError]. *)
Definition drop (label : string) (df : DataFrame) : res DataFrame :=
  if has_column label df then Ok (drop_ignore [label] df)
  else Raise (OtherError "KeyError").

Fixpoint find_column (name : string) (cols : list (string * list cell))
  : option (list cell) :=
  match cols with
  | [] => None
  | (n, cells) :: rest =>
      if String.eqb name n then Some cells else find_column name rest
  end.

(** [df[name]] *)
Definition getitem (name : string) (df : DataFrame) : res (list cell) :=
  match find_column name (columns df) with
  | Some cells => Ok cells
  | None => Raise (OtherError "KeyError")
  end.

(** The columns after [df[name] = cells]: the column is replaced where it
    stands, or added at the end. *)
Definition assign (name : string) (cells : list cell)
    (cols : list (string * list cell)) : list (string * list cell) :=
  if existsb (String.eqb name) (map fst cols) then
    map (fun c => if String.eqb name (fst c) then (fst c, cells) else c) cols
  else cols ++ [(name, cells)].

(** [df[name] = series], the series having the index of the frame. *)
Definition set_column (name : string) (cells : list cell) (df : DataFrame)
  : DataFrame :=
  {| index_len := index_len df; columns := assign name cells (columns df) |}.

(** How many columns carry the name. *)
Definition occurrences (name : string) (df : DataFrame) : nat :=
  List.length (filter (String.eqb name) (names df)).

Section ListAssignment.

(** On a frame where the name labels several columns pandas spreads an
    assigned list over them by rules of its own; what comes of it is left
    open here. *)
Variable repeated_setitem : string -> list cell -> DataFrame -> res DataFrame.

(** [df[name] = values] for a list: where the name labels at most one
    column, the length of the list must be that of the index. *)
Definition setitem (name : string) (values : list cell) (df : DataFrame)
  : res DataFrame :=
  if (1 <? occurrences name df)%nat then repeated_setitem name values df
  else if (List.length values =? index_len df)%nat then
    Ok (set_column name values df)
  else Raise (ValueError "Length of values does not match length of index").

End ListAssignment.

Section RepeatedLabel.

(** The exception of [df[name].value_counts()] where the name labels
    several columns and [df[name]] is a frame. *)
Variable repeated_label_error : exn.

(** [df[name].value_counts()], as far as it can fail; the counts are only
    printed. *)
Definition value_counts_of (name : string) (df : DataFrame) : res unit :=
  match occurrences name df with
  | O => Raise (OtherError "KeyError")
  | S O => Ok tt
  | _ => Raise repeated_label_error
  end.

End RepeatedLabel.

(** [df[name] = None]: the scalar fills the column. *)
Definition setitem_scalar (name : string) (value : cell) (df : DataFrame)
  : DataFrame :=
  set_column name (repeat value (index_len df)) df.

(** [df.insert(0, name, values)]: a name already there is refused. *)
Definition insert_first (name : string) (values : list cell) (df : DataFrame)
  : res DataFrame :=
  if has_column name df then
    Raise (ValueError ("cannot insert " ++ name ++ ", already exists"))
  else if (List.length values =? index_len df)%nat then
    Ok {| index_len := index_len df;
          columns := (name, values) :: columns df |}
  else Raise (ValueError "Length of values does not match length of index").

(** [series.isnull()] on one cell *)
Definition isnull (c : cell) : bool :=
  match c with
  | Null => true
  | Num x => isnan x
  | _ => false
  end.

(** A two-dimensional array: its rows, all of the width given. *)
Record ndarray : Type := {
  width : nat;
  rows : list (list float)
}.

(** [pd.DataFrame(array, columns=names)]: one name per array column. *)
Definition DataFrame_init (a : ndarray) (column_names : list string)
  : res DataFrame :=
  if (List.length column_names =? width a)%nat then
    Ok {| index_len := List.length (rows a);
          columns :=
            map (fun jn => (snd jn,
                            map (fun r => Num (nth (fst jn) r zero)) (rows a)))
                (combine (seq 0 (List.length column_names)) column_names) |}
  else Raise (ValueError "Shape of passed values does not match the columns").

End Pandas.

(** [src/model/train.py] *)
Module Train.

Import Pandas.

(** [load_and_validate_data(data_path)]; [file] is [None] when the path
    does not exist, else what [pd.read_csv] gives. *)
Definition load_and_validate_data (file : option (res DataFrame))
  : res DataFrame :=
  match file with
  | None => Raise FileNotFoundError
  | Some read_csv =>
      df <- read_csv ;;
      if empty df then Raise (ValueError "El dataset está vacío")
      else if negb (has_column "diagnosis" df) then
        Raise (ValueError "Columna 'diagnosis' no encontrada")
      else Ok df
  end.

(** [series.map({'M': 1, 'B': 0})] on one cell: a value that is no key of
    the dict becomes NaN. *)
Definition map_diagnosis (c : cell) : cell :=
  match c with
  | Str s => if String.eqb s "M" then Int 1
             else if String.eqb s "B" then Int 0 else Null
  | _ => Null
  end.

(** The cleaning in [main]: from the frame read to the features [X] and
    the labels [y]. *)
Definition prepare (df : DataFrame) : res (DataFrame * list cell) :=
  let df := drop_ignore ["id"; "Unnamed: 32"] df in
  diagnosis <- getitem "diagnosis" df ;;
  let df := set_column "diagnosis" (map map_diagnosis diagnosis) df in
  diagnosis <- getitem "diagnosis" df ;;
  if existsb isnull diagnosis then
    Raise (ValueError "Valores nulos encontrados en diagnóstico")
  else
    X <- drop "diagnosis" df ;;
    y <- getitem "diagnosis" df ;;
    Ok (X, y).

(** What the scikit-learn steps of [main] produce: the fitted classifier
    and scaler, the accuracy on the test part and the sizes of the two
    parts. *)
Record Fitted : Type := {
  fitted_model : Classifier;
  fitted_scaler : Scaler;
  accuracy : float;
  train_size : Z;
  test_size : Z
}.

(** The dict written to [model_metadata.json]. *)
Definition metadata (X : DataFrame) (f : Fitted) : json :=
  JObj [("accuracy", JFloat (accuracy f));
        ("feature_count", JInt (len (names X)));
        ("train_size", JInt (train_size f));
        ("test_size", JInt (test_size f));
        ("feature_names", JArr (map JStr (names X)))].

(** [main()]: the split, the fitting and the evaluation are scikit-learn's
    and come as [sklearn]; the result is the three files the run leaves in
    [src/model], as the API reads them back. *)
Definition main (file : option (res DataFrame))
    (sklearn : DataFrame -> list cell -> res Fitted) : res Disk :=
  df <- load_and_validate_data file ;;
  Xy <- prepare df ;;
  let (X, y) := Xy in
  f <- sklearn X y ;;
  Ok {| model_file := Ok (fitted_model f);
        scaler_file := Ok (fitted_scaler f);
        metadata_file := Some (Ok (metadata X f)) |}.

End Train.

(** [src/data/load_data.py] *)
Module LoadData.

Import Pandas.

(** What [load_breast_cancer()] returns, as far as it is used. *)
Record Bunch : Type := {
  data : ndarray;
  feature_names : list string;
  target : list Z
}.

(** ['M' if x == 1 else 'B'] *)
Definition diagnosis_letter (x : Z) : cell :=
  Str (if x =? 1 then "M" else "B").

Section Script.

Variable repeated_setitem : string -> list cell -> DataFrame -> res DataFrame.
Variable repeated_label_error : exn.

(** [create_breast_cancer_csv()]: the frame written to
    [breast-cancer.csv]; of the three prints that follow the writing, the
    last evaluates [df['diagnosis'].value_counts()]. *)
Definition create_breast_cancer_csv (b : Bunch) : res DataFrame :=
  df <- DataFrame_init (data b) (feature_names b) ;;
  df <- setitem repeated_setitem "diagnosis"
          (map diagnosis_letter (target b)) df ;;
  df <- insert_first "id"
          (map (fun i => Int (Z.of_nat i)) (seq 0 (index_len df))) df ;;
  let df := setitem_scalar "Unnamed: 32" Null df in
  value_counts_of repeated_label_error "diagnosis" df ;;;
  Ok df.

End Script.

End LoadData.

(** An exception that [predict] answers with the generic 500 body. *)
Definition internal_error (e : exn) : Prop :=
  match e with
  | ValidationError _ | ValueError _ => False
  | _ => True
  end.

(** Structural equality of two floats. *)
Definition same_float (x y : float) : bool :=
  match x, y with
  | S754_zero s, S754_zero s' => Bool.eqb s s'
  | S754_infinity s, S754_infinity s' => Bool.eqb s s'
  | S754_nan, S754_nan => true
  | S754_finite s m e, S754_finite s' m' e' =>
      Bool.eqb s s' && Pos.eqb m m' && Z.eqb e e'
  | _, _ => false
  end.

(** Sample data for the training side. *)
Module TrainSample.

Import Pandas.

Definition bunch : LoadData.Bunch :=
  {| LoadData.data := {| width := 2;
                         rows := [[Sample.quarter; Sample.three_quarters];
                                  [Sample.three_quarters; Sample.quarter]] |};
     LoadData.feature_names := ["mean radius"; "mean texture"];
     LoadData.target := [1; 0] |}.

Definition frame : DataFrame :=
  {| index_len := 2;
     columns := [("id", [Int 0; Int 1]);
                 ("mean radius", [Num Sample.quarter; Num Sample.three_quarters]);
                 ("mean texture", [Num Sample.three_quarters; Num Sample.quarter]);
                 ("diagnosis", [Str "M"; Str "B"]);
                 ("Unnamed: 32", [Null; Null])] |}.

Definition fitted : Train.Fitted :=
  {| Train.fitted_model := Sample.the_classifier;
     Train.fitted_scaler := Sample.the_scaler;
     Train.accuracy := Sample.three_quarters;
     Train.train_size := 1;
     Train.test_size := 1 |}.

Definition sklearn (X : DataFrame) (y : list cell) : res Train.Fitted :=
  Ok fitted.

(** Stand-ins for what pandas does with a repeated column name. *)
Definition repeated_setitem (name : string) (values : list cell)
    (df : DataFrame) : res DataFrame :=
  Raise (ValueError "Columns must be same length as key").

Definition repeated_label_error : exn :=
  ValueError "Grouper for 'diagnosis' not 1-dimensional".

(** The files a training run on [frame] leaves. *)
Definition trained_disk : Disk :=
  {| model_file := Ok Sample.the_classifier;
     scaler_file := Ok Sample.the_scaler;
     metadata_file :=
       Some (Ok (JObj [("accuracy", JFloat Sample.three_quarters);
                       ("feature_count", JInt 2);
                       ("train_size", JInt 1);
                       ("test_size", JInt 1);
                       ("feature_names",
                        JArr [JStr "mean radius"; JStr "mean texture"])])) |}.

(** The feature frame the cleaning of [frame] gives, and the service as it
    stands after booting from the files of the run. *)
Definition features_frame : DataFrame :=
  {| index_len := 2;
     columns := [("mean radius", [Num Sample.quarter; Num Sample.three_quarters]);
                 ("mean texture", [Num Sample.three_quarters; Num Sample.quarter])] |}.

Definition trained_state : ServiceState :=
  {| globals := {| model := Some Sample.the_classifier;
                   scaler := Some Sample.the_scaler;
                   model_metadata := Train.metadata features_frame fitted |};
     model_loaded := true |}.

(** A frame with a label that is neither 'M' nor 'B'. *)
Definition frame_other_label : DataFrame :=
  {| index_len := 2;
     columns := [("mean radius", [Num Sample.quarter; Num Sample.three_quarters]);
                 ("diagnosis", [Str "M"; Str "benign"])] |}.

(** A scaler fitted on another width, and one that fails outright. *)
Definition narrow_scaler : Scaler :=
  {| transform := fun X => Raise (ValueError "X has 2 features, but StandardScaler is expecting 30 features as input.") |}.

Definition broken_scaler : Scaler :=
  {| transform := fun X => Raise TypeError |}.

Definition state_with (sc : Scaler) : ServiceState :=
  {| globals := {| model := Some Sample.the_classifier; scaler := Some sc;
                   model_metadata := Sample.metadata |};
     model_loaded := true |}.

End TrainSample.

(** ** Exact rounding, payload shapes and further samples *)



(** A JSON number. *)
Definition json_number (v : json) : Prop :=
  match v with
  | JInt _ | JFloat _ => True
  | _ => False
  end.

(** The object has a [features] field that is a list of numbers. *)
Definition number_list_payload (fields : list (string * json)) : Prop :=
  exists items, lookup "features" fields = Some (JArr items) /\
                Forall json_number items.

(** The ways an object fails the schema [features: List[float]] that can
    be read off the payload: no [features] field; a [features] value that
    is no list; a list with an item that is [null], a list or an object;
    a list with a string or boolean item that lax mode does not coerce. *)
Inductive schema_mismatch (lax_float : json -> option float)
    (fields : list (string * json)) : Prop :=
| NoFeatures :
    lookup "features" fields = None -> schema_mismatch lax_float fields
| NotAList (v : json) :
    lookup "features" fields = Some v ->
    (forall items, v <> JArr items) -> schema_mismatch lax_float fields
| NoNumberItem (items : list json) (v : json) :
    lookup "features" fields = Some (JArr items) -> In v items ->
    (v = JNull \/ (exists l, v = JArr l) \/ (exists f, v = JObj f)) ->
    schema_mismatch lax_float fields
| NotCoerced (items : list json) (v : json) :
    lookup "features" fields = Some (JArr items) -> In v items ->
    ((exists b, v = JBool b) \/ (exists s, v = JStr s)) ->
    lax_float v = None ->
    schema_mismatch lax_float fields.

Module Cases.

Definition two_thirds : float := S754_finite false 6004799503160661 (-53).



(** A classifier fitted on three classes that answers class 2. *)
Definition three_class_classifier : Classifier :=
  {| predict_labels := fun X => Ok (map (fun _ => 2) X);
     predict_proba :=
       fun X => Ok (map (fun _ => [Sample.quarter; Sample.quarter;
                                   two_thirds]) X) |}.

Definition three_class_disk : Disk :=
  {| model_file := Ok three_class_classifier;
     scaler_file := Ok Sample.the_scaler;
     metadata_file := Some (Ok Sample.metadata) |}.

Definition three_class_state : ServiceState :=
  {| globals := {| model := Some three_class_classifier;
                   scaler := Some Sample.the_scaler;
                   model_metadata := Sample.metadata |};
     model_loaded := true |}.


(** pydantic's lax mode on booleans: [true] reads as 1.0 and [false] as
    0.0. *)
Definition lax_bools (v : json) : option float :=
  match v with
  | JBool true => Some one
  | JBool false => Some zero
  | _ => None
  end.

End Cases.

(** * Properties *)

(** ** The artifact load *)

Lemma load_model_artifacts_returns (d : Disk) (g : Globals) :
  exists b g', load_model_artifacts d g = (Ok b, g').
Proof.
  unfold load_model_artifacts, try_except.
  destruct (load_body d g) as [[b | e] g'].
  - now exists b, g'.
  - exists false, g'. now destruct e.
Qed.

Lemma load_body_ok (d : Disk) (g g' : Globals) (b : bool) :
  load_body d g = (Ok b, g') ->
  b = true /\
  (exists m, model_file d = Ok m /\ model g' = Some m) /\
  (exists s, scaler_file d = Ok s /\ scaler g' = Some s) /\
  is_dict (model_metadata g') /\
  match metadata_file d with
  | None => model_metadata g' = model_metadata g
  | Some f => f = Ok (model_metadata g')
  end.
Proof.
  unfold load_body, bindM, lift, set_model, set_scaler, set_model_metadata,
    read_globals, ret.
  destruct (model_file d) as [m | e]; [| discriminate].
  destruct (scaler_file d) as [s | e]; [| discriminate].
  destruct (metadata_file d) as [[j | e] |]; cbn; try discriminate.
  - destruct j; cbn; try discriminate.
    intros H; injection H as <- <-; cbn.
    repeat split; eauto. now eexists.
  - destruct (model_metadata g) eqn:E; cbn; try discriminate.
    intros H; injection H as <- <-; cbn.
    repeat split; eauto. now eexists.
Qed.

Lemma load_body_complete (d : Disk) (g : Globals) :
  deserializes (model_file d) -> deserializes (scaler_file d) ->
  metadata_usable d -> is_dict (model_metadata g) ->
  exists g', load_body d g = (Ok true, g').
Proof.
  intros [m Hm] [s Hs] Hmeta [fields Hg].
  unfold load_body, bindM, lift, set_model, set_scaler, set_model_metadata,
    read_globals, ret, metadata_usable in *.
  rewrite Hm, Hs.
  destruct (metadata_file d) as [f |]; cbn.
  - destruct Hmeta as [fs ->]. cbn. eauto.
  - rewrite Hg. cbn. eauto.
Qed.

Lemma load_true (d : Disk) (g g' : Globals) :
  load_model_artifacts d g = (Ok true, g') -> load_body d g = (Ok true, g').
Proof.
  unfold load_model_artifacts, try_except.
  destruct (load_body d g) as [[b | e] g1].
  - intros H; injection H as -> ->. reflexivity.
  - destruct e; cbn; discriminate.
Qed.

(** A service that booted with [model_loaded] true holds both artifacts
    and a dict of metadata. *)
Lemma boot_loaded (d : Disk) (st : ServiceState) :
  boot d = Ok st -> model_loaded st = true ->
  (exists m, model_file d = Ok m /\ model (globals st) = Some m) /\
  (exists s, scaler_file d = Ok s /\ scaler (globals st) = Some s) /\
  is_dict (model_metadata (globals st)).
Proof.
  unfold boot.
  destruct (load_model_artifacts d initial_globals) as [[b | e] g] eqn:E;
    [| discriminate].
  intros H; injection H as <-; cbn. intros ->.
  apply load_true, load_body_ok in E. tauto.
Qed.

Lemma boot_returns (d : Disk) : exists st, boot d = Ok st.
Proof.
  unfold boot.
  destruct (load_model_artifacts_returns d initial_globals) as (b & g & ->).
  eauto.
Qed.

(** ** Rounding a probability to four decimals *)

Lemma digits2_pos_bound (m : positive) : Zpos m < 2 ^ Zpos (digits2_pos m).
Proof.
  induction m as [m IH | m IH |]; cbn [digits2_pos].
  - rewrite Pos2Z.inj_succ, Z.pow_succ_r by lia. lia.
  - rewrite Pos2Z.inj_succ, Z.pow_succ_r by lia. lia.
  - reflexivity.
Qed.

Lemma round_half_even_bounds (a b c : Z) :
  0 < b -> 0 <= a <= c * b -> 0 <= round_half_even a b <= c.
Proof.
  intros Hb Ha. unfold round_half_even.
  pose proof (Z.div_mod a b ltac:(lia)) as Hdm.
  pose proof (Z.mod_pos_bound a b Hb) as Hr.
  assert (0 <= a / b) by (apply Z.div_pos; lia).
  assert (a / b <= c) by (apply Z.div_le_upper_bound; lia).
  assert (a / b = c -> a mod b = 0) by nia.
  destruct (Z.compare_spec (2 * (a mod b)) b) as [E | L | G].
  - destruct (Z.even (a / b)); lia.
  - lia.
  - lia.
Qed.

Lemma float64_mantissa (m : positive) (e : Z) (s : bool) :
  is_float64 (S754_finite s m e) = true -> Zpos m < 2 ^ 53.
Proof.
  unfold is_float64, valid_binary, bounded, canonical_mantissa, fexp, emin,
    prec, emax.
  intros Hv. apply andb_prop in Hv as [Hc _]. apply Z.eqb_eq in Hc.
  assert (Hdig : Zpos (digits2_pos m) <= 53) by lia.
  eapply Z.lt_le_trans; [apply digits2_pos_bound |].
  apply Z.pow_le_mono_r; lia.
Qed.

Lemma leb_one (m : positive) (e : Z) :
  leb (S754_finite false m e) one = true ->
  e < -52 \/ (e = -52 /\ Zpos m <= 2 ^ 52).
Proof.
  unfold leb, SFleb, SFcompare, one.
  change (SFone prec emax) with (S754_finite false 4503599627370496 (-52)).
  cbv iota beta.
  change (2 ^ 52) with 4503599627370496.
  destruct (Z.compare_spec e (-52)) as [E | L | G]; intros Hle.
  - right. split; [exact E |].
    pose proof (Pos.compare_spec m 4503599627370496) as HS.
    unfold Pos.compare in HS.
    destruct HS as [-> | L | G].
    + apply Z.le_refl.
    + apply Z.lt_le_incl, Pos2Z.pos_lt_pos, L.
    + discriminate Hle.
  - now left.
  - discriminate.
Qed.

(** A binary64 in [0, 1] that is not zero is [m * 2^e] with [e < 0] and
    [m <= 2^(-e)]. *)
Lemma unit_mantissa (m : positive) (e : Z) :
  is_float64 (S754_finite false m e) = true ->
  leb (S754_finite false m e) one = true ->
  e < 0 /\ Zpos m <= 2 ^ (- e).
Proof.
  intros Hv Hle.
  apply float64_mantissa in Hv. apply leb_one in Hle.
  destruct Hle as [L | [-> Hm]].
  - split; [lia |].
    assert (2 ^ 53 <= 2 ^ (- e)) by (apply Z.pow_le_mono_r; lia). lia.
  - split; [lia | exact Hm].
Qed.

Lemma scaled4_unit (m : positive) (e : Z) :
  e < 0 -> Zpos m <= 2 ^ (- e) -> 0 <= scaled4 m e <= 10000.
Proof.
  intros He Hm. unfold scaled4.
  destruct (Z.leb_spec 0 e); [lia |].
  apply round_half_even_bounds; lia.
Qed.






(** ** The schema check *)

Section SchemaFacts.

Variable lax_float : json -> option float.

Local Abbreviation validate_float := (validate_float lax_float).
Local Abbreviation validate_items := (validate_items lax_float).
Local Abbreviation PredictionInput_init := (PredictionInput_init lax_float).
Local Abbreviation has_features := (has_features lax_float).
Local Abbreviation off_schema := (off_schema lax_float).

Lemma validate_items_accepts (items : list json) (xs : list float) :
  Forall2 (fun v x => validate_float v = Some x) items xs ->
  forall i, validate_items i items = (xs, []).
Proof.
  induction 1 as [| v x items xs Hv _ IH]; intros i; cbn.
  - reflexivity.
  - now rewrite IH, Hv.
Qed.

Lemma validate_items_rejects (items : list json) (v : json) :
  In v items -> validate_float v = None ->
  forall i, snd (validate_items i items) <> [].
Proof.
  induction items as [| w items IH]; intros Hin Hv i; [destruct Hin |].
  cbn. destruct (validate_items (S i) items) as [xs errs] eqn:E.
  destruct Hin as [-> | Hin].
  - rewrite Hv. discriminate.
  - specialize (IH Hin Hv (S i)). rewrite E in IH. cbn in IH.
    destruct (validate_float w); cbn; [exact IH | discriminate].
Qed.

Lemma validate_items_locates (items : list json) :
  forall i, Forall field_error (snd (validate_items i items)).
Proof.
  induction items as [| w items IH]; intros i; cbn; [constructor |].
  specialize (IH (S i)).
  destruct (validate_items (S i) items) as [xs errs]. cbn in IH.
  destruct (validate_float w); cbn; [exact IH |].
  constructor; [| exact IH]. now eexists.
Qed.

Lemma has_features_accepted (fields : list (string * json))
    (xs : list float) :
  has_features fields xs ->
  truthy (JObj fields) = true /\
  PredictionInput_init (JObj fields) = Ok {| features := xs |}.
Proof.
  intros (items & Hl & Hv). split.
  - destruct fields; [discriminate | reflexivity].
  - cbn. rewrite Hl. now rewrite (validate_items_accepts _ _ Hv).
Qed.

Lemma off_schema_refused (fields : list (string * json)) :
  off_schema fields ->
  exists errors, errors <> [] /\ Forall field_error errors /\
                 PredictionInput_init (JObj fields)
                 = Raise (ValidationError errors).
Proof.
  unfold off_schema. cbn.
  destruct (lookup "features" fields) as [v |] eqn:Hl.
  - destruct v as [| b | n | x | s | items | fs]; intros H;
      try (eexists; split; [| split; [| reflexivity]];
           [discriminate | constructor; [now eexists | constructor]]).
    destruct H as (v & Hin & Hv).
    pose proof (validate_items_rejects items v Hin Hv 0%nat) as Hne.
    pose proof (validate_items_locates items 0%nat) as Hloc.
    destruct (validate_items 0 items) as [xs [| e errs]]; cbn in *.
    + now destruct Hne.
    + exists (e :: errs). repeat split; trivial.
  - intros _. eexists. split; [| split]; [| | reflexivity].
    + discriminate.
    + constructor; [now eexists | constructor].
Qed.

End SchemaFacts.

(** ** The routes *)

Section Routes.

Variable lax_float : json -> option float.
Variable str_value : json -> string.
Variable error_dict : error_detail -> json.

Local Abbreviation PredictionInput_init := (PredictionInput_init lax_float).
Local Abbreviation has_features := (has_features lax_float).
Local Abbreviation off_schema := (off_schema lax_float).
Local Abbreviation validate_features := (validate_features str_value).
Local Abbreviation length_message := (length_message str_value).
Local Abbreviation predict_body := (predict_body lax_float str_value).
Local Abbreviation predict := (predict lax_float str_value error_dict).

(** A request on a service that is not loaded stops at the first test. *)
Lemma predict_not_loaded (st : ServiceState) (rq : body_outcome) :
  model_loaded st = false ->
  predict st rq = Ok (503, error_body "Modelo no disponible").
Proof. intros H. unfold predict. now rewrite H. Qed.

Lemma health_check_dict (st : ServiceState) :
  is_dict (model_metadata (globals st)) ->
  exists accuracy,
    health_check st
    = Ok (if model_loaded st then 200 else 503,
          JObj [("status", JStr (if model_loaded st then "ok" else "degraded"));
                ("message", JStr "API de diagnóstico de cáncer de mama");
                ("model_loaded", JBool (model_loaded st));
                ("model_accuracy", accuracy)]).
Proof.
  intros [fields H]. unfold health_check. rewrite H. cbn. eauto.
Qed.

(** On a loaded service a body with data goes through the [try]. *)
Lemma predict_loaded (st : ServiceState) (v : json) :
  model_loaded st = true -> truthy v = true ->
  predict st (Parsed v)
  = match predict_body st v with
    | Ok r => Ok r
    | Raise (ValidationError errors) =>
        Ok (422, JObj [("error", JStr "Datos inválidos");
                       ("details", JArr (map error_dict errors))])
    | Raise (ValueError msg) => Ok (400, error_body msg)
    | Raise _ => Ok (500, error_body "Error interno del servidor")
    end.
Proof.
  intros Hl Ht. unfold predict. rewrite Hl. cbn. rewrite Ht. reflexivity.
Qed.

Lemma predict_no_data (st : ServiceState) (v : json) :
  model_loaded st = true -> truthy v = false ->
  predict st (Parsed v) = Ok (400, error_body "No se proporcionaron datos JSON").
Proof.
  intros Hl Ht. unfold predict. rewrite Hl. cbn. now rewrite Ht.
Qed.

Lemma validate_features_length (g : Globals) (xs : list float)
    (expected : json) :
  get (model_metadata g) "feature_count" (JInt 30) = Ok expected ->
  int_eq (len xs) expected = false ->
  validate_features g {| features := xs |}
  = Raise (ValueError (length_message expected (len xs))).
Proof.
  intros He Hn. unfold validate_features. rewrite He. cbn. now rewrite Hn.
Qed.

Lemma validate_features_invalid (g : Globals) (xs : list float)
    (expected : json) :
  get (model_metadata g) "feature_count" (JInt 30) = Ok expected ->
  int_eq (len xs) expected = true ->
  has_invalid xs = true ->
  validate_features g {| features := xs |} = Raise (ValueError invalid_message).
Proof.
  intros He Hn Hi. unfold validate_features. rewrite He. cbn. rewrite Hn. cbn.
  unfold has_invalid in Hi. now rewrite Hi.
Qed.

Lemma finite_not_invalid (xs : list float) :
  forallb isfinite xs = true -> has_invalid xs = false.
Proof.
  unfold has_invalid. induction xs as [| x xs IH]; cbn; [reflexivity |].
  intros H. apply andb_prop in H as [Hx Hxs]. specialize (IH Hxs).
  apply orb_false_elim in IH as [-> ->].
  unfold isfinite in Hx. apply andb_prop in Hx as [Hn Hi].
  apply negb_true_iff in Hn, Hi. now rewrite Hn, Hi.
Qed.

Lemma validate_features_passes (g : Globals) (xs : list float)
    (expected : json) :
  get (model_metadata g) "feature_count" (JInt 30) = Ok expected ->
  int_eq (len xs) expected = true ->
  forallb isfinite xs = true ->
  validate_features g {| features := xs |} = Ok tt.
Proof.
  intros He Hn Hf. unfold validate_features. rewrite He. cbn. rewrite Hn. cbn.
  apply finite_not_invalid in Hf. unfold has_invalid in Hf. now rewrite Hf.
Qed.

(** A semantic failure of the request is answered with 400 and the
    message of the exception. *)
Lemma predict_semantic_error (st : ServiceState)
    (fields : list (string * json)) (xs : list float) (msg : string) :
  model_loaded st = true ->
  has_features fields xs ->
  validate_features (globals st) {| features := xs |} = Raise (ValueError msg) ->
  predict st (Parsed (JObj fields)) = Ok (400, error_body msg).
Proof.
  intros Hl Hf Hv.
  destruct (has_features_accepted _ _ _ Hf) as [Ht Hi].
  rewrite predict_loaded by assumption.
  unfold predict_body. rewrite Hi. cbn. rewrite Hv. reflexivity.
Qed.

(** What a successful run of the [try] in [predict] went through. *)
Lemma predict_body_ok (st : ServiceState) (v : json) (r : response) :
  predict_body st v = Ok r ->
  exists clf X labels label p0 p1,
    model (globals st) = Some clf /\
    predict_labels clf X = Ok labels /\
    index labels 0 = Ok label /\
    r = (200, JObj [("prediction", JStr (label_name label));
                    ("confidence", JObj [("Benigno", JFloat (round4 p0));
                                         ("Maligno", JFloat (round4 p1))]);
                    ("prediction_numeric", JInt label)]).
Proof.
  unfold predict_body.
  destruct (PredictionInput_init v) as [input |]; cbn; [| discriminate].
  destruct (validate_features (globals st) input); cbn; [| discriminate].
  destruct (scaler (globals st)) as [sc |]; cbn; [| discriminate].
  destruct (transform sc (to_numpy input)) as [X |]; cbn; [| discriminate].
  destruct (model (globals st)) as [clf |]; cbn; [| discriminate].
  destruct (predict_labels clf X) as [labels |] eqn:Hlab; cbn; [| discriminate].
  destruct (predict_proba clf X) as [proba |]; cbn; [| discriminate].
  destruct (index labels 0) as [label |] eqn:Hl; cbn; [| discriminate].
  destruct (index proba 0) as [row |]; cbn; [| discriminate].
  destruct (index row 0) as [p0 |]; cbn; [| discriminate].
  destruct (index row 1) as [p1 |]; cbn; [| discriminate].
  intros H; injection H as <-.
  exists clf, X, labels, label, p0, p1. auto.
Qed.

(** Status 200 only comes out of the [try]. *)
Lemma predict_200 (st : ServiceState) (rq : body_outcome) (body : json) :
  predict st rq = Ok (200, body) ->
  exists v, rq = Parsed v /\ predict_body st v = Ok (200, body).
Proof.
  unfold predict.
  destruct (model_loaded st); cbn; [| discriminate].
  destruct rq as [v | e]; cbn; [| discriminate].
  destruct (truthy v); cbn; [| discriminate].
  destruct (predict_body st v) as [r | e] eqn:E.
  - intros H; injection H as ->. eauto.
  - destruct e; discriminate.
Qed.

Lemma label_name_maligno (label : Z) : label_name label = "Maligno" <-> label = 1.
Proof.
  unfold label_name. destruct (Z.eqb_spec label 1); split; trivial;
    try discriminate; contradiction.
Qed.

Lemma label_name_benigno (label : Z) :
  label = 0 \/ label = 1 -> (label_name label = "Benigno" <-> label = 0).
Proof.
  unfold label_name. intros [-> | ->]; cbn; split; trivial; discriminate.
Qed.

(** A loaded service has a feature count in force. *)
Lemma loaded_expected_count (d : Disk) (st : ServiceState) :
  boot d = Ok st -> model_loaded st = true ->
  exists expected, expected_count st expected /\
                   (metadata_file d = None -> expected = JInt 30).
Proof.
  unfold boot.
  destruct (load_model_artifacts d initial_globals) as [[b | e] g] eqn:E;
    [| discriminate].
  intros H; injection H as <-; cbn. intros ->.
  apply load_true, load_body_ok in E.
  destruct E as (_ & _ & _ & [fields Hd] & Hm).
  unfold expected_count. cbn. rewrite Hd. cbn.
  eexists. split; [reflexivity |].
  intros Hnone. rewrite Hnone in Hm. cbn in Hm. rewrite Hd in Hm.
  injection Hm as ->. reflexivity.
Qed.

(** The service without its model: every prediction request is turned
    away, and the health check reports the degraded state as long as the
    metadata global is a dict. *)
Lemma degraded_service (st : ServiceState) :
  model_loaded st = false ->
  (forall rq, predict st rq = Ok (503, error_body "Modelo no disponible")) /\
  (is_dict (model_metadata (globals st)) ->
   exists body, health_check st = Ok (503, body) /\
                body_field "model_loaded" body = Some (JBool false)).
Proof.
  intros Hl. split.
  - intros rq. now apply predict_not_loaded.
  - intros Hd. destruct (health_check_dict st Hd) as [acc H].
    rewrite Hl in H. eexists. split; [exact H | reflexivity].
Qed.

(** ** The claims on the routes *)

(** C1, at the input where the code departs from it: with a classifier
    and a scaler in place and a metadata file holding the JSON document
    [[]], the load assigns the list to [model_metadata] and then fails on
    its [.get]; [model_loaded] is false, every [POST /predict] is answered
    503 "Modelo no disponible", but [GET /] raises [AttributeError] out of
    [health_check] where a 503 response is due. *)
Theorem degraded_health_check_raises :
  exists st,
    boot Sample.disk_list_metadata = Ok st /\
    model_loaded st = false /\
    (forall rq, predict st rq = Ok (503, error_body "Modelo no disponible")) /\
    health_check st = Raise AttributeError.
Proof.
  eexists. split; [reflexivity |]. split; [reflexivity |]. split.
  - intros rq. now apply predict_not_loaded.
  - reflexivity.
Qed.


(** C3, as the code has it: in every 200 response of [POST /predict],
    [prediction] is "Maligno" exactly when [prediction_numeric] is 1 and
    "Benigno" exactly when it is not 1, so whenever it is 0. *)
Theorem prediction_label_matches_numeric (st : ServiceState)
    (rq : body_outcome) (body : json) :
  predict st rq = Ok (200, body) ->
  exists n name,
    body_field "prediction_numeric" body = Some (JInt n) /\
    body_field "prediction" body = Some (JStr name) /\
    (name = "Maligno" <-> n = 1) /\
    (name = "Benigno" <-> n <> 1) /\
    (n = 0 -> name = "Benigno").
Proof.
  intros H.
  apply predict_200 in H as (v & -> & H).
  apply predict_body_ok in H
    as (clf & X & labels & label & p0 & p1 & _ & _ & _ & Hr).
  injection Hr as ->.
  exists label, (label_name label).
  split; [reflexivity |]. split; [reflexivity |].
  split; [apply label_name_maligno |].
  unfold label_name. destruct (Z.eqb_spec label 1) as [-> | Hne].
  - split; [split; [discriminate | contradiction] | discriminate].
  - split; [split; trivial | trivial].
Qed.

(** C4: a loaded service has an expected feature count, the metadata value
    or 30 when there is no metadata file; every feature list of another
    length is answered 400 with a message that gives the expected and the
    received count, in decimal digits for an integer count, and
    [{"features": [1,2,3]}] is answered with 3 as the received count:
    "Se esperaban 30 features, recibidas 3" without a metadata file. *)
Theorem predict_length_mismatch (d : Disk) (st : ServiceState) :
  boot d = Ok st -> model_loaded st = true ->
  exists expected,
    expected_count st expected /\
    (metadata_file d = None -> expected = JInt 30) /\
    (forall fields xs,
        has_features fields xs ->
        int_eq (len xs) expected = false ->
        predict st (Parsed (JObj fields))
        = Ok (400, error_body ("Se esperaban " ++ str str_value expected
                                 ++ " features, recibidas "
                                 ++ str_int (len xs)))) /\
    (forall k fields xs,
        expected = JInt k ->
        has_features fields xs ->
        len xs <> k ->
        predict st (Parsed (JObj fields))
        = Ok (400, error_body ("Se esperaban " ++ str_int k
                                 ++ " features, recibidas "
                                 ++ str_int (len xs)))) /\
    (forall k,
        expected = JInt k -> k <> 3 ->
        predict st (Parsed (JObj [("features", JArr [JInt 1; JInt 2; JInt 3])]))
        = Ok (400, error_body ("Se esperaban " ++ str_int k
                                 ++ " features, recibidas 3"))) /\
    (metadata_file d = None ->
     predict st (Parsed (JObj [("features", JArr [JInt 1; JInt 2; JInt 3])]))
     = Ok (400, error_body "Se esperaban 30 features, recibidas 3")).
Proof.
  intros Hb Hl.
  destruct (loaded_expected_count d st Hb Hl) as (expected & He & Hdef).
  exists expected. split; [exact He |]. split; [exact Hdef |].
  assert (Hgen : forall fields xs,
             has_features fields xs ->
             int_eq (len xs) expected = false ->
             predict st (Parsed (JObj fields))
             = Ok (400, error_body (length_message expected (len xs)))).
  { intros fields xs Hf Hn.
    apply (predict_semantic_error st fields xs); trivial.
    now apply validate_features_length. }
  assert (H123 : has_features [("features", JArr [JInt 1; JInt 2; JInt 3])]
                   [of_Z 1; of_Z 2; of_Z 3]).
  { eexists. split; [reflexivity |]. repeat constructor. }
  split; [exact Hgen |]. split; [| split].
  - intros k fields xs -> Hf Hk.
    apply (Hgen fields xs Hf). cbn. now apply Z.eqb_neq.
  - intros k -> Hk.
    apply (Hgen _ _ H123). change ((3 =? k) = false). apply Z.eqb_neq. lia.
  - intros Hnone. rewrite (Hdef Hnone) in Hgen.
    now apply (Hgen _ _ H123).
Qed.

(** C5: on a loaded service a feature vector of the expected length that
    holds a NaN or an infinity is answered 400 with an error body. *)
Theorem predict_invalid_values (st : ServiceState) (expected : json)
    (fields : list (string * json)) (xs : list float) :
  model_loaded st = true ->
  expected_count st expected ->
  has_features fields xs ->
  int_eq (len xs) expected = true ->
  has_invalid xs = true ->
  predict st (Parsed (JObj fields))
  = Ok (400, error_body "Features contienen valores inválidos").
Proof.
  intros Hl He Hf Hn Hi.
  apply (predict_semantic_error st fields xs); trivial.
  now apply (validate_features_invalid _ _ expected).
Qed.

(** What the schema refuses is answered 422 with the details. *)
Lemma off_schema_422 (st : ServiceState)
    (fields : list (string * json)) :
  model_loaded st = true ->
  fields <> [] ->
  off_schema fields ->
  exists errors,
    errors <> [] /\ Forall field_error errors /\
    predict st (Parsed (JObj fields))
    = Ok (422, JObj [("error", JStr "Datos inválidos");
                     ("details", JArr (map error_dict errors))]) /\
    422 <> 400.
Proof.
  intros Hl Hne Hoff.
  destruct (off_schema_refused _ _ Hoff) as (errors & He & Hloc & Hinit).
  exists errors. repeat split; trivial; [| lia].
  rewrite predict_loaded; trivial.
  - unfold predict_body. rewrite Hinit. reflexivity.
  - destruct fields; [contradiction | reflexivity].
Qed.

Lemma schema_mismatch_off (fields : list (string * json)) :
  schema_mismatch lax_float fields -> off_schema fields.
Proof.
  intros H. unfold off_schema.
  destruct H as [Hl | v Hl Hv | items v Hl Hin Hv | items v Hl Hin Hv Hlax];
    rewrite Hl.
  - exact I.
  - destruct v; try exact I. now destruct (Hv items).
  - exists v. split; [exact Hin |].
    destruct Hv as [-> | [[l ->] | [f ->]]]; reflexivity.
  - exists v. split; [exact Hin |].
    destruct Hv as [[b ->] | [s0 ->]]; exact Hlax.
Qed.

(** C6, as the code has it: on a loaded service a non-empty JSON object
    that has no [features] field, or one that is no list, or a list with an
    item that is [null], a list or an object, or with a string or boolean
    that lax mode does not coerce to a float, is answered 422 with
    "Datos inválidos" and one detail entry per failure, each naming the
    field; the status is not the 400 of the semantic failures. *)
Theorem predict_schema_error (st : ServiceState)
    (fields : list (string * json)) :
  model_loaded st = true ->
  fields <> [] ->
  schema_mismatch lax_float fields ->
  exists errors,
    errors <> [] /\ Forall field_error errors /\
    predict st (Parsed (JObj fields))
    = Ok (422, JObj [("error", JStr "Datos inválidos");
                     ("details", JArr (map error_dict errors))]) /\
    422 <> 400.
Proof.
  intros Hl Hne Hm.
  apply off_schema_422; trivial.
  now apply schema_mismatch_off.
Qed.

(** C7, as the code has it: on a loaded service a body for which
    [get_json] returns [None] (or any other false value) is answered 400
    with the one-field error body; when [get_json] itself raises, for a
    body that is no JSON, the exception is not caught in [predict] and
    leaves it for the framework to answer. *)
Theorem predict_without_json (st : ServiceState) :
  model_loaded st = true ->
  (forall v, truthy v = false ->
             predict st (Parsed v)
             = Ok (400, error_body "No se proporcionaron datos JSON")) /\
  (forall e, predict st (Refused e) = Raise e).
Proof.
  intros Hl. split.
  - intros v Hv. now apply predict_no_data.
  - intros e. unfold predict. rewrite Hl. reflexivity.
Qed.

(** C9: the length is checked before the values: a feature list of the
    wrong length that also holds a NaN or an infinity is answered with the
    length message, which is not the invalid-values message. *)
Theorem length_checked_before_values (st : ServiceState) (expected : json)
    (fields : list (string * json)) (xs : list float) :
  model_loaded st = true ->
  expected_count st expected ->
  has_features fields xs ->
  int_eq (len xs) expected = false ->
  has_invalid xs = true ->
  predict st (Parsed (JObj fields))
  = Ok (400, error_body ("Se esperaban " ++ str str_value expected
                           ++ " features, recibidas " ++ str_int (len xs))) /\
  "Se esperaban " ++ str str_value expected ++ " features, recibidas "
    ++ str_int (len xs) <> "Features contienen valores inválidos".
Proof.
  intros Hl He Hf Hn _. split.
  - apply (predict_semantic_error st fields xs); trivial.
    now apply validate_features_length.
  - cbn. discriminate.
Qed.

(** C10: on a loaded service a body that parses to a false JSON value,
    the empty object among them, is answered 400 "No se proporcionaron
    datos JSON", not with the 422 of a schema error. *)
Theorem predict_falsy_body (st : ServiceState) :
  model_loaded st = true ->
  (forall v, truthy v = false ->
             predict st (Parsed v)
             = Ok (400, error_body "No se proporcionaron datos JSON")) /\
  predict st (Parsed (JObj []))
  = Ok (400, error_body "No se proporcionaron datos JSON") /\
  400 <> 422.
Proof.
  intros Hl. split; [| split].
  - intros v Hv. now apply predict_no_data.
  - now apply predict_no_data.
  - lia.
Qed.

End Routes.

(** Without the classifier file the service boots degraded, and the
    health check answers 503 with [model_loaded] false. *)
Example missing_model_degraded :
  exists st body,
    boot Sample.disk_no_model = Ok st /\
    model_loaded st = false /\
    health_check st = Ok (503, body) /\
    body_field "status" body = Some (JStr "degraded") /\
    body_field "model_loaded" body = Some (JBool false) /\
    body_field "model_accuracy" body = Some (JStr "N/A").
Proof.
  eexists. eexists. repeat split; reflexivity.
Qed.

(** ** The claims on the artifact load *)

(** C8, as the code has it: the load never raises; it returns true exactly
    when the classifier and the scaler deserialize and the metadata file,
    if there is one, reads as a JSON object; without a metadata file the
    metadata stay the empty dict. *)
Theorem load_model_artifacts_true_iff (d : Disk) :
  exists b g,
    load_model_artifacts d initial_globals = (Ok b, g) /\
    (b = true <->
     deserializes (model_file d) /\ deserializes (scaler_file d) /\
     metadata_usable d) /\
    (b = true -> metadata_file d = None -> model_metadata g = JObj []).
Proof.
  destruct (load_model_artifacts_returns d initial_globals) as (b & g & H).
  exists b, g. split; [exact H |]. split; [split |].
  - intros ->. apply load_true, load_body_ok in H.
    destruct H as (_ & (m & Hm & _) & (s & Hs & _) & [fields Hd] & Hmeta).
    split; [now exists m |]. split; [now exists s |].
    unfold metadata_usable. destruct (metadata_file d) as [f |]; [| exact I].
    exists fields. now rewrite Hmeta, Hd.
  - intros (Hm & Hs & Hu).
    destruct (load_body_complete d initial_globals Hm Hs Hu) as [g' Hb].
    { now exists []. }
    unfold load_model_artifacts, try_except in H. rewrite Hb in H.
    now injection H as <- _.
  - intros -> Hnone. apply load_true, load_body_ok in H.
    destruct H as (_ & _ & _ & _ & Hmeta).
    now rewrite Hnone in Hmeta.
Qed.

(** C8 as stated fails: with a classifier and a scaler that deserialize
    and a metadata file that is no JSON, the load returns false. *)
Lemma load_fails_on_bad_metadata :
  deserializes (model_file Sample.disk_bad_metadata) /\
  deserializes (scaler_file Sample.disk_bad_metadata) /\
  fst (load_model_artifacts Sample.disk_bad_metadata initial_globals)
  = Ok false /\
  ~ (fst (load_model_artifacts Sample.disk_bad_metadata initial_globals)
     = Ok true <->
     deserializes (model_file Sample.disk_bad_metadata) /\
     deserializes (scaler_file Sample.disk_bad_metadata)).
Proof.
  assert (Hm : deserializes (model_file Sample.disk_bad_metadata))
    by (now eexists).
  assert (Hs : deserializes (scaler_file Sample.disk_bad_metadata))
    by (now eexists).
  repeat split; trivial.
  intros [_ H]. specialize (H (conj Hm Hs)). discriminate H.
Qed.

(** C7 as stated fails: on a loaded service, a body that [get_json]
    refuses with the framework's bad-request error gets no
    [{"error": ...}] answer from [predict]; the exception leaves it. *)
Lemma predict_refused_body_escapes :
  boot Sample.disk = Ok Sample.state /\
  model_loaded Sample.state = true /\
  predict Sample.lax_float Sample.str_value Sample.error_dict Sample.state
    (Refused (HTTPException 400))
  = Raise (HTTPException 400) /\
  ~ (exists msg,
        predict Sample.lax_float Sample.str_value Sample.error_dict
          Sample.state (Refused (HTTPException 400))
        = Ok (400, error_body msg)).
Proof.
  repeat split. intros [msg H]. discriminate H.
Qed.

(** ** The properties at work on the sample service *)

Lemma sample_binary_labels : binary_labels Sample.the_classifier.
Proof.
  intros X labels H. injection H as <-.
  induction X; cbn; constructor; auto.
Qed.

Lemma sample_unit_probabilities : unit_probabilities Sample.the_classifier.
Proof.
  intros X rows H. injection H as <-.
  induction X; cbn; constructor; auto.
  repeat constructor.
Qed.





Lemma prediction_label_matches_numeric_witness :
  exists n name,
    body_field "prediction_numeric"
      (JObj [("prediction", JStr "Maligno");
             ("confidence", JObj [("Benigno", JFloat (round4 Sample.quarter));
                                  ("Maligno",
                                   JFloat (round4 Sample.three_quarters))]);
             ("prediction_numeric", JInt 1)]) = Some (JInt n) /\
    body_field "prediction"
      (JObj [("prediction", JStr "Maligno");
             ("confidence", JObj [("Benigno", JFloat (round4 Sample.quarter));
                                  ("Maligno",
                                   JFloat (round4 Sample.three_quarters))]);
             ("prediction_numeric", JInt 1)]) = Some (JStr name) /\
    (name = "Maligno" <-> n = 1) /\
    (name = "Benigno" <-> n <> 1) /\
    (n = 0 -> name = "Benigno").
Proof.
  apply (prediction_label_matches_numeric Sample.lax_float Sample.str_value
           Sample.error_dict Sample.state
           (Parsed (JObj (Sample.payload [JFloat Sample.quarter; JInt 2])))).
  reflexivity.
Defined.

(** C3 as stated fails: a service booted with a classifier of three
    classes answers 200 with [prediction] "Benigno" and
    [prediction_numeric] 2. *)
Lemma benigno_with_other_label :
  boot Cases.three_class_disk = Ok Cases.three_class_state /\
  predict Sample.lax_float Sample.str_value Sample.error_dict
    Cases.three_class_state
    (Parsed (JObj (Sample.payload [JFloat Sample.quarter; JInt 2])))
  = Ok (200, JObj [("prediction", JStr "Benigno");
                   ("confidence",
                    JObj [("Benigno", JFloat (round4 Sample.quarter));
                          ("Maligno", JFloat (round4 Sample.quarter))]);
                   ("prediction_numeric", JInt 2)]) /\
  ~ (JStr "Benigno" = JStr "Benigno" <-> JInt 2 = JInt 0).
Proof.
  repeat split. intros [H _]. specialize (H eq_refl). discriminate H.
Qed.

Lemma predict_length_mismatch_witness :
  exists expected,
    expected_count Sample.state_no_metadata expected /\
    (metadata_file Sample.disk_no_metadata = None -> expected = JInt 30) /\
    (forall fields xs,
        has_features Sample.lax_float fields xs ->
        int_eq (len xs) expected = false ->
        predict Sample.lax_float Sample.str_value Sample.error_dict
          Sample.state_no_metadata (Parsed (JObj fields))
        = Ok (400, error_body ("Se esperaban " ++ str Sample.str_value expected
                                 ++ " features, recibidas "
                                 ++ str_int (len xs)))) /\
    (forall k fields xs,
        expected = JInt k ->
        has_features Sample.lax_float fields xs ->
        len xs <> k ->
        predict Sample.lax_float Sample.str_value Sample.error_dict
          Sample.state_no_metadata (Parsed (JObj fields))
        = Ok (400, error_body ("Se esperaban " ++ str_int k
                                 ++ " features, recibidas "
                                 ++ str_int (len xs)))) /\
    (forall k,
        expected = JInt k -> k <> 3 ->
        predict Sample.lax_float Sample.str_value Sample.error_dict
          Sample.state_no_metadata
          (Parsed (JObj [("features", JArr [JInt 1; JInt 2; JInt 3])]))
        = Ok (400, error_body ("Se esperaban " ++ str_int k
                                 ++ " features, recibidas 3"))) /\
    (metadata_file Sample.disk_no_metadata = None ->
     predict Sample.lax_float Sample.str_value Sample.error_dict
       Sample.state_no_metadata
       (Parsed (JObj [("features", JArr [JInt 1; JInt 2; JInt 3])]))
     = Ok (400, error_body "Se esperaban 30 features, recibidas 3")).
Proof.
  apply (predict_length_mismatch Sample.lax_float Sample.str_value
           Sample.error_dict Sample.disk_no_metadata Sample.state_no_metadata).
  - reflexivity.
  - reflexivity.
Defined.

Lemma predict_invalid_values_witness :
  predict Sample.lax_float Sample.str_value Sample.error_dict Sample.state
    (Parsed (JObj (Sample.payload [JFloat nan; JInt 2])))
  = Ok (400, error_body "Features contienen valores inválidos").
Proof.
  apply (predict_invalid_values Sample.lax_float Sample.str_value
           Sample.error_dict Sample.state (JInt 2)
           (Sample.payload [JFloat nan; JInt 2]) [nan; of_Z 2]).
  - reflexivity.
  - reflexivity.
  - exists [JFloat nan; JInt 2]. split; [reflexivity | repeat constructor].
  - reflexivity.
  - reflexivity.
Defined.

Lemma predict_schema_error_witness :
  exists errors,
    errors <> [] /\ Forall field_error errors /\
    predict Sample.lax_float Sample.str_value Sample.error_dict Sample.state
      (Parsed (JObj [("features", JArr [JInt 1; JNull])]))
    = Ok (422, JObj [("error", JStr "Datos inválidos");
                     ("details", JArr (map Sample.error_dict errors))]) /\
    422 <> 400.
Proof.
  apply (predict_schema_error Sample.lax_float Sample.str_value
           Sample.error_dict Sample.state
           [("features", JArr [JInt 1; JNull])]).
  - reflexivity.
  - discriminate.
  - apply (NoNumberItem Sample.lax_float _ [JInt 1; JNull] JNull).
    + reflexivity.
    + right. left. reflexivity.
    + left. reflexivity.
Defined.

(** C6 as stated fails: with booleans read as pydantic's lax mode reads
    them, the object [{"features": [true, 2]}], whose [features] is no
    list of numbers, passes the schema and is answered 200, not 422. *)
Lemma boolean_features_accepted :
  model_loaded Sample.state = true /\
  ~ number_list_payload [("features", JArr [JBool true; JInt 2])] /\
  predict Cases.lax_bools Sample.str_value Sample.error_dict Sample.state
    (Parsed (JObj [("features", JArr [JBool true; JInt 2])]))
  = Ok (200, JObj [("prediction", JStr "Maligno");
                   ("confidence",
                    JObj [("Benigno", JFloat (round4 Sample.quarter));
                          ("Maligno", JFloat (round4 Sample.three_quarters))]);
                   ("prediction_numeric", JInt 1)]).
Proof.
  split; [reflexivity |]. split; [| reflexivity].
  intros (items & Hl & Hn). cbn in Hl. injection Hl as <-.
  apply Forall_inv in Hn. exact Hn.
Qed.

Lemma predict_without_json_witness :
  (forall v, truthy v = false ->
             predict Sample.lax_float Sample.str_value Sample.error_dict
               Sample.state (Parsed v)
             = Ok (400, error_body "No se proporcionaron datos JSON")) /\
  (forall e, predict Sample.lax_float Sample.str_value Sample.error_dict
               Sample.state (Refused e) = Raise e).
Proof.
  apply (predict_without_json Sample.lax_float Sample.str_value
           Sample.error_dict Sample.state).
  reflexivity.
Defined.

Lemma length_checked_before_values_witness :
  predict Sample.lax_float Sample.str_value Sample.error_dict Sample.state
    (Parsed (JObj (Sample.payload [JFloat nan])))
  = Ok (400, error_body ("Se esperaban " ++ str Sample.str_value (JInt 2)
                           ++ " features, recibidas " ++ str_int (len [nan])))
  /\
  "Se esperaban " ++ str Sample.str_value (JInt 2) ++ " features, recibidas "
    ++ str_int (len [nan]) <> "Features contienen valores inválidos".
Proof.
  apply (length_checked_before_values Sample.lax_float Sample.str_value
           Sample.error_dict Sample.state (JInt 2)
           (Sample.payload [JFloat nan]) [nan]).
  - reflexivity.
  - reflexivity.
  - exists [JFloat nan]. split; [reflexivity | repeat constructor].
  - reflexivity.
  - reflexivity.
Defined.

Lemma predict_falsy_body_witness :
  (forall v, truthy v = false ->
             predict Sample.lax_float Sample.str_value Sample.error_dict
               Sample.state (Parsed v)
             = Ok (400, error_body "No se proporcionaron datos JSON")) /\
  predict Sample.lax_float Sample.str_value Sample.error_dict Sample.state
    (Parsed (JObj []))
  = Ok (400, error_body "No se proporcionaron datos JSON") /\
  400 <> 422.
Proof.
  apply (predict_falsy_body Sample.lax_float Sample.str_value
           Sample.error_dict Sample.state).
  reflexivity.
Defined.

(** * Further properties of the service *)

Section ServiceFacts.

Variable lax_float : json -> option float.
Variable str_value : json -> string.
Variable error_dict : error_detail -> json.

Local Abbreviation validate_float := (validate_float lax_float).
Local Abbreviation validate_items := (validate_items lax_float).
Local Abbreviation PredictionInput_init := (PredictionInput_init lax_float).
Local Abbreviation has_features := (has_features lax_float).
Local Abbreviation validate_features := (validate_features str_value).
Local Abbreviation predict_body := (predict_body lax_float str_value).
Local Abbreviation predict := (predict lax_float str_value error_dict).

Lemma validate_items_split (items : list json) :
  forall i xs errs,
    validate_items i items = (xs, errs) ->
    (errs = [] -> Forall2 (fun v x => validate_float v = Some x) items xs) /\
    (List.length xs + List.length errs = List.length items)%nat.
Proof.
  induction items as [| v items IH]; intros i xs errs; cbn.
  - intros H; injection H as <- <-. split; [constructor | reflexivity].
  - destruct (validate_items (S i) items) as [xs' errs'] eqn:E.
    destruct (IH (S i) xs' errs' E) as [IH1 IH2].
    destruct (validate_float v) as [x |] eqn:Hv; intros H; injection H as <- <-.
    + split; [| cbn; lia].
      intros Hnil. constructor; [exact Hv | now apply IH1].
    + split; [discriminate | cbn; lia].
Qed.

Lemma validate_items_errors (items : list json) :
  forall i e,
    In e (snd (validate_items i items)) <->
    exists j v, nth_error items j = Some v /\ validate_float v = None /\
                e = {| err_kind := FloatType;
                       err_loc := [LocField "features"; LocIndex (i + j)];
                       err_input := v |}.
Proof.
  induction items as [| w items IH]; intros i e; cbn.
  - split; [intros [] |]. intros (j & v & H & _). now destruct j.
  - specialize (IH (S i) e).
    destruct (validate_items (S i) items) as [xs errs]. cbn in IH.
    destruct (validate_float w) as [x |] eqn:Hw; cbn.
    + rewrite IH. split.
      * intros (j & v & Hn & Hv & ->). exists (S j), v.
        repeat split; trivial. now rewrite Nat.add_succ_r.
      * intros (j & v & Hn & Hv & ->). destruct j as [| j]; cbn in Hn.
        -- injection Hn as ->. congruence.
        -- exists j, v. repeat split; trivial. now rewrite Nat.add_succ_r.
    + rewrite IH. split.
      * intros [<- | (j & v & Hn & Hv & ->)].
        -- exists 0%nat, w. repeat split; trivial. now rewrite Nat.add_0_r.
        -- exists (S j), v. repeat split; trivial. now rewrite Nat.add_succ_r.
      * intros (j & v & Hn & Hv & ->). destruct j as [| j]; cbn in Hn.
        -- injection Hn as ->. left. now rewrite Nat.add_0_r.
        -- right. exists j, v. repeat split; trivial.
           now rewrite Nat.add_succ_r.
Qed.

(** X1: every request gets one of the five statuses 200, 400, 422, 500 and
    503 from [predict], except that on a loaded service an exception raised
    by [get_json] leaves [predict] as it is. *)
Theorem predict_outcomes (st : ServiceState) (rq : body_outcome) :
  (exists status body,
      predict st rq = Ok (status, body) /\
      In status [200; 400; 422; 500; 503]) \/
  (model_loaded st = true /\
   exists e, rq = Refused e /\ predict st rq = Raise e).
Proof.
  unfold predict.
  destruct (model_loaded st); cbn.
  - destruct rq as [v | e]; cbn.
    + left. destruct (truthy v); cbn.
      * destruct (predict_body st v) as [r | e] eqn:E.
        -- apply predict_body_ok in E
             as (clf & X & labels & label & p0 & p1 & _ & _ & _ & ->).
           eexists. eexists. split; [reflexivity |]. cbn. auto.
        -- destruct e; eexists; eexists; (split; [reflexivity |]);
             cbn; auto 6.
      * eexists. eexists. split; [reflexivity |]. cbn. auto.
    + right. split; [reflexivity |]. now exists e.
  - left. eexists. eexists. split; [reflexivity |]. cbn. auto 6.
Qed.

(** X2: on a loaded service a body with data that is no JSON object (an
    array, a string, a number, [true]) is answered 500 with the generic
    message: the unpacking into [PredictionInput] is a [TypeError]. *)
Theorem predict_non_object_body (st : ServiceState) (v : json) :
  model_loaded st = true ->
  truthy v = true ->
  (forall fields, v <> JObj fields) ->
  predict st (Parsed v)
  = Ok (500, error_body "Error interno del servidor").
Proof.
  intros Hl Ht Hv.
  rewrite predict_loaded by assumption.
  unfold predict_body.
  destruct v; try reflexivity.
  now destruct (Hv fields).
Qed.

(** The request has passed both validations and reaches the scaler. *)
Lemma predict_body_validated (st : ServiceState) (expected : json)
    (fields : list (string * json)) (xs : list float) :
  expected_count st expected ->
  has_features fields xs ->
  int_eq (len xs) expected = true ->
  forallb isfinite xs = true ->
  predict_body st (JObj fields)
  = (data_scaled <- call (scaler (globals st)) transform [xs] ;;
     prediction <- call (model (globals st)) predict_labels data_scaled ;;
     prediction_proba <- call (model (globals st)) predict_proba data_scaled ;;
     label <- index prediction 0 ;;
     row <- index prediction_proba 0 ;;
     p0 <- index row 0 ;;
     p1 <- index row 1 ;;
     Ok (200, JObj [("prediction", JStr (label_name label));
                    ("confidence", JObj [("Benigno", JFloat (round4 p0));
                                         ("Maligno", JFloat (round4 p1))]);
                    ("prediction_numeric", JInt label)])).
Proof.
  intros He Hf Hn Hfin.
  destruct (has_features_accepted _ _ _ Hf) as [_ Hi].
  unfold predict_body. rewrite Hi. cbn.
  rewrite (validate_features_passes _ _ _ _ He Hn Hfin). reflexivity.
Qed.

(** X3: when the scaler, or the classifier's [predict], raises a
    [ValueError] on a vector that passed validation (scikit-learn does so
    for a width it was not fitted on), the request is answered 400 with the
    library's message, like a validation failure of the request. *)
Theorem predict_pipeline_value_error (st : ServiceState) (sc : Scaler)
    (clf : Classifier) (expected : json) (fields : list (string * json))
    (xs : list float) (msg : string) :
  model_loaded st = true ->
  scaler (globals st) = Some sc ->
  model (globals st) = Some clf ->
  expected_count st expected ->
  has_features fields xs ->
  int_eq (len xs) expected = true ->
  forallb isfinite xs = true ->
  transform sc [xs] = Raise (ValueError msg) \/
  (exists X, transform sc [xs] = Ok X /\
             predict_labels clf X = Raise (ValueError msg)) ->
  predict st (Parsed (JObj fields)) = Ok (400, error_body msg).
Proof.
  intros Hl Hsc Hclf He Hf Hn Hfin Hraise.
  destruct (has_features_accepted _ _ _ Hf) as [Ht _].
  rewrite predict_loaded by assumption.
  rewrite (predict_body_validated st expected fields xs) by assumption.
  rewrite Hsc, Hclf. cbn.
  destruct Hraise as [-> | (X & -> & HX)]; cbn; [reflexivity |].
  rewrite HX. reflexivity.
Qed.

(** X4: when the scaler, or the classifier's [predict], raises any other
    exception on a vector that passed validation, the request is answered
    500 with the generic message; nothing of the exception is sent. *)
Theorem predict_pipeline_internal_error (st : ServiceState) (sc : Scaler)
    (clf : Classifier) (expected : json) (fields : list (string * json))
    (xs : list float) (e : exn) :
  model_loaded st = true ->
  scaler (globals st) = Some sc ->
  model (globals st) = Some clf ->
  expected_count st expected ->
  has_features fields xs ->
  int_eq (len xs) expected = true ->
  forallb isfinite xs = true ->
  internal_error e ->
  transform sc [xs] = Raise e \/
  (exists X, transform sc [xs] = Ok X /\ predict_labels clf X = Raise e) ->
  predict st (Parsed (JObj fields))
  = Ok (500, error_body "Error interno del servidor").
Proof.
  intros Hl Hsc Hclf He Hf Hn Hfin Hint Hraise.
  destruct (has_features_accepted _ _ _ Hf) as [Ht _].
  rewrite predict_loaded by assumption.
  rewrite (predict_body_validated st expected fields xs) by assumption.
  rewrite Hsc, Hclf. cbn.
  destruct Hraise as [-> | (X & -> & HX)]; cbn; [| rewrite HX; cbn];
    destruct e; try reflexivity; contradiction.
Qed.

(** X5: a service that booted loaded answers [GET /] with 200, status
    "ok", [model_loaded] true and, as [model_accuracy], the [accuracy] of
    the metadata file, or "N/A" when the file or the key is missing. *)
Theorem health_check_loaded (d : Disk) (st : ServiceState) :
  boot d = Ok st -> model_loaded st = true ->
  exists accuracy,
    health_check st
    = Ok (200, JObj [("status", JStr "ok");
                     ("message", JStr "API de diagnóstico de cáncer de mama");
                     ("model_loaded", JBool true);
                     ("model_accuracy", accuracy)]) /\
    (metadata_file d = None -> accuracy = JStr "N/A") /\
    (forall fields,
        metadata_file d = Some (Ok (JObj fields)) ->
        accuracy = match lookup "accuracy" fields with
                   | Some a => a
                   | None => JStr "N/A"
                   end).
Proof.
  unfold boot.
  destruct (load_model_artifacts d initial_globals) as [[b | e] g] eqn:E;
    [| discriminate].
  intros H; injection H as <-; cbn. intros ->.
  apply load_true, load_body_ok in E.
  destruct E as (_ & _ & _ & [fields Hd] & Hm).
  unfold health_check. cbn. rewrite Hd. cbn.
  eexists. split; [reflexivity |]. split.
  - intros Hnone. rewrite Hnone in Hm. cbn in Hm. rewrite Hd in Hm.
    now injection Hm as ->.
  - intros fs Hsome. rewrite Hsome in Hm. injection Hm as Hm.
    rewrite Hd in Hm. now injection Hm as ->.
Qed.

(** X6: whatever the classifier, a 200 response of [POST /predict] has
    exactly the fields [prediction], [confidence] and [prediction_numeric],
    [prediction] being "Maligno" or "Benigno" and [confidence] holding
    floats under the keys "Benigno" and "Maligno". *)
Theorem predict_200_shape (st : ServiceState) (rq : body_outcome)
    (body : json) :
  predict st rq = Ok (200, body) ->
  exists name c0 c1 n,
    body = JObj [("prediction", JStr name);
                 ("confidence", JObj [("Benigno", JFloat c0);
                                      ("Maligno", JFloat c1)]);
                 ("prediction_numeric", JInt n)] /\
    (name = "Maligno" \/ name = "Benigno").
Proof.
  intros H.
  apply predict_200 in H as (v & -> & H).
  apply predict_body_ok in H
    as (clf & X & labels & label & p0 & p1 & _ & _ & _ & Hr).
  injection Hr as ->.
  exists (label_name label), (round4 p0), (round4 p1), label.
  split; [reflexivity |].
  unfold label_name. destruct (label =? 1); auto.
Qed.

(** X7: other keys of the payload are ignored: two non-empty objects with
    the same [features] value get the same response. *)
Theorem predict_depends_on_features_only (st : ServiceState)
    (fields fields' : list (string * json)) (v : json) :
  lookup "features" fields = Some v ->
  lookup "features" fields' = Some v ->
  predict st (Parsed (JObj fields)) = predict st (Parsed (JObj fields')).
Proof.
  intros H H'.
  assert (Hinit : PredictionInput_init (JObj fields)
                  = PredictionInput_init (JObj fields')).
  { cbn. now rewrite H, H'. }
  assert (Ht : truthy (JObj fields) = true)
    by (destruct fields; [discriminate | reflexivity]).
  assert (Ht' : truthy (JObj fields') = true)
    by (destruct fields'; [discriminate | reflexivity]).
  destruct (model_loaded st) eqn:Hl.
  - rewrite !predict_loaded by assumption.
    unfold predict_body. now rewrite Hinit.
  - now rewrite !predict_not_loaded by assumption.
Qed.

(** X8: the schema accepts an object exactly when its [features] field is
    a list whose items all read as floats, and the input then holds those
    floats in order. *)
Theorem PredictionInput_init_accepts_iff (fields : list (string * json))
    (input : PredictionInput) :
  PredictionInput_init (JObj fields) = Ok input <->
  has_features fields (features input).
Proof.
  split.
  - cbn. destruct (lookup "features" fields) as [v |] eqn:Hl; [| discriminate].
    destruct v; try discriminate.
    destruct (validate_items 0 items) as [xs errs] eqn:E.
    destruct errs; [| discriminate].
    intros H; injection H as <-. cbn.
    exists items. split; [exact Hl |].
    now apply (validate_items_split items 0%nat xs []).
  - intros H. destruct input as [xs].
    now apply has_features_accepted in H.
Qed.

(** X9: when the [features] list is refused, the details hold exactly one
    entry for each item that does not read as a float, with the position
    of the item and the item itself. *)
Theorem validation_errors_per_item (fields : list (string * json))
    (items : list json) (errors : list error_detail) :
  lookup "features" fields = Some (JArr items) ->
  PredictionInput_init (JObj fields) = Raise (ValidationError errors) ->
  (forall e, In e errors <->
             exists i v, nth_error items i = Some v /\
                         validate_float v = None /\
                         e = {| err_kind := FloatType;
                                err_loc := [LocField "features"; LocIndex i];
                                err_input := v |}) /\
  (List.length errors
   = List.length (filter (fun v => match validate_float v with
                                   | None => true
                                   | Some _ => false
                                   end) items)).
Proof.
  intros Hl. cbn. rewrite Hl.
  destruct (validate_items 0 items) as [xs errs] eqn:E.
  destruct errs as [| e0 errs]; [discriminate |].
  intros H; injection H as <-. split.
  - intros e. pose proof (validate_items_errors items 0%nat e) as HE.
    rewrite E in HE. exact HE.
  - clear Hl. change (e0 :: errs) with (snd (xs, e0 :: errs)). rewrite <- E.
    generalize 0%nat. clear.
    induction items as [| w items IH]; intros i; cbn; [reflexivity |].
    specialize (IH (S i)).
    destruct (validate_items (S i) items) as [xs errs]. cbn in IH.
    destruct (validate_float w); cbn; now rewrite IH.
Qed.

(** X10: when the classifier or the scaler cannot be loaded, the metadata
    file is never read: the service boots degraded and [GET /] answers 503
    with status "degraded" and "N/A" as accuracy, whatever the metadata
    file holds. *)
Theorem degraded_health_reports_no_accuracy (d : Disk) :
  (exists e, model_file d = Raise e) \/ (exists e, scaler_file d = Raise e) ->
  exists st,
    boot d = Ok st /\
    model_loaded st = false /\
    health_check st
    = Ok (503, JObj [("status", JStr "degraded");
                     ("message", JStr "API de diagnóstico de cáncer de mama");
                     ("model_loaded", JBool false);
                     ("model_accuracy", JStr "N/A")]).
Proof.
  intros H.
  unfold boot, load_model_artifacts, try_except, load_body, bindM, lift,
    set_model, set_scaler.
  destruct (model_file d) as [m | em].
  - destruct H as [[e H] | [e H]]; [discriminate |]. rewrite H. cbn.
    eexists. split; [destruct e; reflexivity |]. now split.
  - cbn. eexists. split; [destruct em; reflexivity |]. now split.
Qed.

End ServiceFacts.

(** ** Rounding twice *)

Lemma same_float_eq (x y : float) : same_float x y = true -> x = y.
Proof.
  destruct x as [s | s | | s m e], y as [s' | s' | | s' m' e']; cbn;
    try discriminate; trivial.
  - intros H. apply Bool.eqb_prop in H. now subst.
  - intros H. apply Bool.eqb_prop in H. now subst.
  - intros H. apply andb_prop in H as [H He]. apply andb_prop in H as [Hs Hm].
    apply Bool.eqb_prop in Hs. apply Pos.eqb_eq in Hm. apply Z.eqb_eq in He.
    now subst.
Qed.

Lemma round4_table :
  forallb (fun k => same_float (round4 (decimal4 false k)) (decimal4 false k))
          (map Z.of_nat (seq 0 (Z.to_nat 10001))) = true.
Proof. vm_compute. reflexivity. Qed.

(** X11: rounding a probability to four decimals a second time changes
    nothing: [round(round(p, 4), 4) == round(p, 4)]. *)
Theorem round4_idempotent (p : float) :
  probability p -> round4 (round4 p) = round4 p.
Proof.
  intros [Hv Hu]. unfold in_unit in Hu. apply andb_prop in Hu as [H0 H1].
  destruct p as [s | s | | s m e]; try reflexivity.
  destruct s; [discriminate |].
  destruct (unit_mantissa m e Hv H1) as [He Hm].
  pose proof (scaled4_unit m e He Hm) as Hn.
  cbn [round4]. apply same_float_eq.
  pose proof round4_table as T. rewrite forallb_forall in T.
  apply T. apply in_map_iff. exists (Z.to_nat (scaled4 m e)).
  split; [lia |]. apply in_seq. lia.
Qed.

Lemma round4_idempotent_witness :
  round4 (round4 Sample.quarter) = round4 Sample.quarter.
Proof.
  apply (round4_idempotent Sample.quarter). split; reflexivity.
Defined.

(** * The training side *)

Section FrameFacts.

Import Pandas.

Lemma find_column_filter (labels : list string) (name : string)
    (cols : list (string * list cell)) :
  listed labels name = false ->
  find_column name (filter (fun c => negb (listed labels (fst c))) cols)
  = find_column name cols.
Proof.
  intros Hn. induction cols as [| [n cells] cols IH]; cbn; [reflexivity |].
  destruct (String.eqb_spec name n) as [<- | Hne].
  - rewrite Hn. cbn. now rewrite String.eqb_refl.
  - destruct (listed labels n); cbn; [exact IH |].
    destruct (String.eqb_spec name n); [contradiction | exact IH].
Qed.

Lemma find_column_assign (name : string) (cells : list cell)
    (cols : list (string * list cell)) :
  find_column name (assign name cells cols) = Some cells.
Proof.
  unfold assign.
  destruct (existsb (String.eqb name) (map fst cols)) eqn:E.
  - induction cols as [| [n c] cols IH]; cbn in *; [discriminate |].
    destruct (String.eqb_spec name n) as [-> | Hne]; cbn.
    + now rewrite String.eqb_refl.
    + destruct (String.eqb_spec name n); [contradiction |]. now apply IH.
  - induction cols as [| [n c] cols IH]; cbn in *.
    + now rewrite String.eqb_refl.
    + apply orb_false_elim in E as [E1 E2]. rewrite E1. now apply IH.
Qed.

Lemma names_assign (name : string) (cells : list cell)
    (cols : list (string * list cell)) :
  existsb (String.eqb name) (map fst cols) = true ->
  map fst (assign name cells cols) = map fst cols.
Proof.
  intros E. unfold assign. rewrite E. rewrite map_map.
  apply map_ext. intros [n c]. cbn. now destruct (String.eqb name n).
Qed.

Lemma find_column_has (name : string) (cols : list (string * list cell)) :
  existsb (String.eqb name) (map fst cols) = true <->
  exists cells, find_column name cols = Some cells.
Proof.
  induction cols as [| [n c] cols IH]; cbn.
  - split; [discriminate | intros [? H]; discriminate].
  - destruct (String.eqb name n); cbn; [| exact IH].
    split; eauto.
Qed.

Lemma names_filter (f : string -> bool) (cols : list (string * list cell)) :
  map fst (filter (fun c => f (fst c)) cols) = filter f (map fst cols).
Proof.
  induction cols as [| [n c] cols IH]; cbn; [reflexivity |].
  destruct (f n); cbn; now rewrite IH.
Qed.

Lemma map_diagnosis_int (c : cell) :
  isnull (Train.map_diagnosis c) = false ->
  (c = Str "M" /\ Train.map_diagnosis c = Int 1) \/
  (c = Str "B" /\ Train.map_diagnosis c = Int 0).
Proof.
  destruct c as [| n | x | s]; cbn; try discriminate.
  destruct (String.eqb_spec s "M") as [-> | _]; [now left |].
  destruct (String.eqb_spec s "B") as [-> | _]; [now right | discriminate].
Qed.

Lemma map_diagnosis_labels (diagnosis : list cell) :
  existsb isnull (map Train.map_diagnosis diagnosis) = false ->
  Forall2 (fun c l => (c = Str "M" /\ l = Int 1) \/ (c = Str "B" /\ l = Int 0))
          diagnosis (map Train.map_diagnosis diagnosis).
Proof.
  induction diagnosis as [| c cs IH]; cbn; [constructor |].
  intros H. apply orb_false_elim in H as [Hc Hcs].
  constructor; [now apply map_diagnosis_int | now apply IH].
Qed.

Lemma map_diagnosis_null (diagnosis : list cell) (c : cell) :
  In c diagnosis -> c <> Str "M" -> c <> Str "B" ->
  existsb isnull (map Train.map_diagnosis diagnosis) = true.
Proof.
  intros Hin HM HB. apply existsb_exists.
  exists (Train.map_diagnosis c). split; [now apply in_map |].
  destruct (isnull (Train.map_diagnosis c)) eqn:E; [reflexivity |].
  apply map_diagnosis_int in E as [[-> _] | [-> _]]; contradiction.
Qed.

Lemma filter_twice {A : Type} (f g h : A -> bool) (l : list A) :
  (forall a, h a = g a && f a) ->
  filter f (filter g l) = filter h l.
Proof.
  intros H. induction l as [| a l IH]; cbn; [reflexivity |].
  rewrite H. destruct (g a); cbn; [| exact IH].
  destruct (f a); now rewrite IH.
Qed.

(** The feature names: the columns that are neither dropped nor the
    label. *)
Lemma not_reserved_twice (l : list string) :
  filter (fun n => negb (listed ["diagnosis"] n))
         (filter (fun n => negb (listed ["id"; "Unnamed: 32"] n)) l)
  = filter (fun n => negb (listed ["id"; "Unnamed: 32"; "diagnosis"] n)) l.
Proof.
  apply filter_twice. intros n. unfold listed. cbn.
  destruct (String.eqb n "id"), (String.eqb n "Unnamed: 32"),
    (String.eqb n "diagnosis"); reflexivity.
Qed.

(** What [prepare] does on a frame that has its label column. *)
Lemma prepare_unfold (df : DataFrame) (diagnosis : list cell) :
  getitem "diagnosis" df = Ok diagnosis ->
  Train.prepare df
  = if existsb isnull (map Train.map_diagnosis diagnosis) then
      Raise (ValueError "Valores nulos encontrados en diagnóstico")
    else
      Ok (drop_ignore ["diagnosis"]
            (set_column "diagnosis" (map Train.map_diagnosis diagnosis)
               (drop_ignore ["id"; "Unnamed: 32"] df)),
          map Train.map_diagnosis diagnosis).
Proof.
  unfold getitem. intros H.
  destruct (find_column "diagnosis" (columns df)) as [cells |] eqn:Hf;
    [| discriminate].
  injection H as ->.
  assert (Hf' : find_column "diagnosis"
                  (columns (drop_ignore ["id"; "Unnamed: 32"] df))
                = Some diagnosis).
  { cbn [drop_ignore columns]. now rewrite find_column_filter. }
  unfold Train.prepare, getitem. rewrite Hf'. cbn [bind].
  cbn [set_column columns]. rewrite find_column_assign. cbn [bind].
  destruct (existsb isnull (map Train.map_diagnosis diagnosis)); [reflexivity |].
  unfold drop, has_column, names. cbn [set_column columns].
  rewrite names_assign by (apply find_column_has; eauto).
  assert (Hex : existsb (String.eqb "diagnosis")
                  (map fst (columns (drop_ignore ["id"; "Unnamed: 32"] df)))
                = true) by (apply find_column_has; eauto).
  rewrite Hex. reflexivity.
Qed.

Lemma find_column_assign_other (name n : string) (cells : list cell)
    (cols : list (string * list cell)) :
  n <> name ->
  find_column name (assign n cells cols) = find_column name cols.
Proof.
  intros Hne. unfold assign.
  destruct (existsb (String.eqb n) (map fst cols)).
  - induction cols as [| [m c] cols IH]; cbn; [reflexivity |].
    destruct (String.eqb_spec n m) as [<- | Hnm]; cbn.
    + destruct (String.eqb_spec name n); [now subst | exact IH].
    + destruct (String.eqb name m); [reflexivity | exact IH].
  - induction cols as [| [m c] cols IH]; cbn.
    + destruct (String.eqb_spec name n); [now subst | reflexivity].
    + destruct (String.eqb name m); [reflexivity | exact IH].
Qed.

Lemma listed_in (labels : list string) (name : string) :
  listed labels name = true <-> In name labels.
Proof.
  unfold listed. rewrite existsb_exists. split.
  - intros (l & Hin & E). apply String.eqb_eq in E. now subst.
  - intros Hin. exists name. split; [exact Hin | apply String.eqb_refl].
Qed.

Lemma has_column_in (name : string) (df : DataFrame) :
  has_column name df = true <-> In name (names df).
Proof. apply listed_in. Qed.

Lemma prepare_needs_label (df : DataFrame) (e : exn) :
  getitem "diagnosis" df = Raise e -> Train.prepare df = Raise e.
Proof.
  unfold getitem.
  destruct (find_column "diagnosis" (columns df)) eqn:Hf; [discriminate |].
  intros H. unfold Train.prepare, getitem. cbn [drop_ignore columns].
  rewrite find_column_filter by reflexivity. rewrite Hf. cbn [bind]. now injection H as <-.
Qed.

Lemma load_and_validate_data_read (df df' : DataFrame) :
  Train.load_and_validate_data (Some (Ok df)) = Ok df' ->
  df' = df /\ empty df = false /\ has_column "diagnosis" df = true.
Proof.
  cbn. destruct (empty df); [discriminate |].
  destruct (has_column "diagnosis" df); cbn; [| discriminate].
  intros H; injection H as <-. auto.
Qed.

Lemma prepare_result (df X : DataFrame) (y : list cell) :
  Train.prepare df = Ok (X, y) ->
  exists diagnosis,
    getitem "diagnosis" df = Ok diagnosis /\
    existsb isnull (map Train.map_diagnosis diagnosis) = false /\
    X = drop_ignore ["diagnosis"]
          (set_column "diagnosis" (map Train.map_diagnosis diagnosis)
             (drop_ignore ["id"; "Unnamed: 32"] df)) /\
    y = map Train.map_diagnosis diagnosis.
Proof.
  intros H.
  destruct (getitem "diagnosis" df) as [diagnosis | e] eqn:Hd.
  2: { rewrite (prepare_needs_label df e Hd) in H. discriminate. }
  rewrite (prepare_unfold df diagnosis Hd) in H.
  destruct (existsb isnull (map Train.map_diagnosis diagnosis)) eqn:Hnull;
    [discriminate |].
  injection H as <- <-. exists diagnosis. auto.
Qed.

Lemma prepared_names (df : DataFrame) (diagnosis cells : list cell) :
  getitem "diagnosis" df = Ok diagnosis ->
  names (drop_ignore ["diagnosis"]
           (set_column "diagnosis" cells
              (drop_ignore ["id"; "Unnamed: 32"] df)))
  = filter (fun n => negb (listed ["id"; "Unnamed: 32"; "diagnosis"] n))
           (names df).
Proof.
  intros Hd. unfold names. cbn [drop_ignore set_column columns].
  rewrite (names_filter (fun n => negb (listed ["diagnosis"] n))).
  rewrite names_assign.
  - rewrite (names_filter (fun n => negb (listed ["id"; "Unnamed: 32"] n))).
    apply not_reserved_twice.
  - apply find_column_has. exists diagnosis.
    rewrite find_column_filter by reflexivity.
    unfold getitem in Hd.
    destruct (find_column "diagnosis" (columns df)); [| discriminate].
    now injection Hd as ->.
Qed.

Lemma main_result (df : DataFrame)
    (sklearn : DataFrame -> list cell -> res Train.Fitted) (disk : Disk) :
  Train.main (Some (Ok df)) sklearn = Ok disk ->
  exists X y f,
    Train.prepare df = Ok (X, y) /\
    sklearn X y = Ok f /\
    disk = {| model_file := Ok (Train.fitted_model f);
              scaler_file := Ok (Train.fitted_scaler f);
              metadata_file := Some (Ok (Train.metadata X f)) |}.
Proof.
  unfold Train.main.
  destruct (Train.load_and_validate_data (Some (Ok df))) as [df' | e] eqn:Hl;
    [| discriminate].
  apply load_and_validate_data_read in Hl as (-> & _ & _). cbn [bind].
  destruct (Train.prepare df) as [[X y] | e]; [| discriminate].
  cbn [bind]. destruct (sklearn X y) as [f | e] eqn:Hs; [| discriminate].
  cbn [bind]. intros H; injection H as <-.
  exists X, y, f. auto.
Qed.

(** X12: [load_and_validate_data] hands back the frame read exactly when
    the file exists, was read, has at least one row and one column and has
    a [diagnosis] column; a file with a header and no rows is refused as
    empty even if [diagnosis] is among its columns. *)
Theorem load_and_validate_data_ok_iff (file : option (res DataFrame))
    (df : DataFrame) :
  (Train.load_and_validate_data file = Ok df <->
   file = Some (Ok df) /\ index_len df <> 0%nat /\ columns df <> [] /\
   In "diagnosis" (names df)) /\
  (index_len df = 0%nat ->
   Train.load_and_validate_data (Some (Ok df))
   = Raise (ValueError "El dataset está vacío")).
Proof.
  split.
  - unfold Train.load_and_validate_data. split.
    + destruct file as [[df' | e] |]; cbn; try discriminate.
      unfold empty.
      destruct (Nat.eqb_spec (index_len df') 0); cbn; [discriminate |].
      destruct (columns df') eqn:Hc; [discriminate |].
      destruct (has_column "diagnosis" df') eqn:Hd; cbn; [| discriminate].
      intros H; injection H as <-.
      rewrite Hc. repeat split; trivial; [discriminate |].
      now apply has_column_in.
    + intros (-> & Hn & Hc & Hd). cbn. unfold empty.
      destruct (Nat.eqb_spec (index_len df) 0); [contradiction |].
      destruct (columns df) eqn:E; [contradiction |]. cbn.
      apply has_column_in in Hd. now rewrite Hd.
  - intros H. cbn. unfold empty. now rewrite H.
Qed.

(** X13: when the cleaning in [main] goes through, each label is 1 where
    the [diagnosis] cell is 'M' and 0 where it is 'B'; the feature frame
    has the rows of the frame read and its columns other than [id],
    [Unnamed: 32] and [diagnosis], unchanged and in their order. *)
Theorem prepare_labels_and_features (df X : DataFrame) (y : list cell) :
  well_formed df ->
  Train.prepare df = Ok (X, y) ->
  (exists diagnosis,
      getitem "diagnosis" df = Ok diagnosis /\
      Forall2 (fun c l => (c = Str "M" /\ l = Int 1) \/
                          (c = Str "B" /\ l = Int 0)) diagnosis y) /\
  index_len X = index_len df /\
  names X = filter (fun n => negb (listed ["id"; "Unnamed: 32"; "diagnosis"] n))
                   (names df) /\
  (forall name, ~ In name ["id"; "Unnamed: 32"; "diagnosis"] ->
                getitem name X = getitem name df).
Proof.
  intros _ H.
  apply prepare_result in H as (diagnosis & Hd & Hnull & -> & ->).
  split; [| split; [| split]].
  - exists diagnosis. split; [exact Hd |]. now apply map_diagnosis_labels.
  - reflexivity.
  - now apply (prepared_names df diagnosis).
  - intros name Hname. unfold getitem. cbn [drop_ignore set_column columns].
    assert (H1 : listed ["diagnosis"] name = false).
    { destruct (listed ["diagnosis"] name) eqn:E; [| reflexivity].
      apply listed_in in E. destruct Hname. cbn in *. tauto. }
    assert (H2 : listed ["id"; "Unnamed: 32"] name = false).
    { destruct (listed ["id"; "Unnamed: 32"] name) eqn:E; [| reflexivity].
      apply listed_in in E. destruct Hname. cbn in *. tauto. }
    rewrite find_column_filter by exact H1.
    rewrite find_column_assign_other.
    + now rewrite find_column_filter by exact H2.
    + intros <-. apply Hname. cbn. tauto.
Qed.

(** X14: a [diagnosis] cell that is neither 'M' nor 'B' (another string, a
    number, a missing value) stops the training with the null-values
    error. *)
Theorem prepare_rejects_other_values (df : DataFrame)
    (diagnosis : list cell) (c : cell) :
  well_formed df ->
  getitem "diagnosis" df = Ok diagnosis ->
  In c diagnosis -> c <> Str "M" -> c <> Str "B" ->
  Train.prepare df
  = Raise (ValueError "Valores nulos encontrados en diagnóstico").
Proof.
  intros _ Hd Hin HM HB.
  rewrite (prepare_unfold df diagnosis Hd).
  now rewrite (map_diagnosis_null diagnosis c Hin HM HB).
Qed.

(** X15: the files a successful training run leaves boot the service
    loaded: its globals hold the fitted classifier and scaler, the feature
    count in force is the number of feature columns of the CSV, and
    [GET /] answers 200 with the accuracy measured in training. *)
Theorem trained_service (df : DataFrame)
    (sklearn : DataFrame -> list cell -> res Train.Fitted) (disk : Disk) :
  well_formed df ->
  Train.main (Some (Ok df)) sklearn = Ok disk ->
  exists X y f st,
    Train.prepare df = Ok (X, y) /\
    sklearn X y = Ok f /\
    boot disk = Ok st /\
    model_loaded st = true /\
    model (globals st) = Some (Train.fitted_model f) /\
    scaler (globals st) = Some (Train.fitted_scaler f) /\
    expected_count st (JInt (len (names X))) /\
    health_check st
    = Ok (200, JObj [("status", JStr "ok");
                     ("message", JStr "API de diagnóstico de cáncer de mama");
                     ("model_loaded", JBool true);
                     ("model_accuracy", JFloat (Train.accuracy f))]).
Proof.
  intros _ H.
  apply main_result in H as (X & y & f & Hp & Hs & ->).
  exists X, y, f. eexists. repeat split; try assumption; reflexivity.
Qed.
Variable repeated_setitem : string -> list cell -> DataFrame -> res DataFrame.
Variable repeated_label_error : exn.

Local Abbreviation create_breast_cancer_csv :=
  (LoadData.create_breast_cancer_csv repeated_setitem repeated_label_error).

Lemma names_DataFrame_init (l : list string) (cellsf : nat -> list cell) :
  forall start,
    map fst (map (fun jn : nat * string => (snd jn, cellsf (fst jn)))
               (combine (seq start (List.length l)) l)) = l.
Proof.
  induction l as [| n l IH]; intros start; cbn; [reflexivity |].
  now rewrite IH.
Qed.

Lemma names_assign_new (name : string) (cells : list cell)
    (cols : list (string * list cell)) :
  ~ In name (map fst cols) ->
  map fst (assign name cells cols) = (map fst cols ++ [name])%list.
Proof.
  intros Hn. unfold assign.
  destruct (existsb (String.eqb name) (map fst cols)) eqn:E.
  - apply (listed_in (map fst cols) name) in E. contradiction.
  - now rewrite map_app.
Qed.

Lemma names_assign_any (name : string) (cells : list cell)
    (cols : list (string * list cell)) (n : string) :
  n <> name ->
  (In n (map fst (assign name cells cols)) <-> In n (map fst cols)).
Proof.
  intros Hne. unfold assign.
  destruct (existsb (String.eqb name) (map fst cols)) eqn:E.
  - fold (assign name cells cols). rewrite <- (names_assign name cells cols E).
    unfold assign. rewrite E. reflexivity.
  - rewrite map_app, in_app_iff. cbn. split; [| tauto].
    intros [H | [H | []]]; [exact H | now subst].
Qed.

Lemma filter_unlisted (labels l : list string) :
  (forall n, In n labels -> ~ In n l) ->
  filter (fun n => negb (listed labels n)) l = l.
Proof.
  intros H. induction l as [| n l IH]; cbn; [reflexivity |].
  destruct (listed labels n) eqn:E.
  - apply listed_in in E. destruct (H n E). now left.
  - cbn. rewrite IH; [reflexivity |].
    intros m Hm Hin. apply (H m Hm). now right.
Qed.

Lemma map_diagnosis_letter (t : Z) :
  Train.map_diagnosis (LoadData.diagnosis_letter t)
  = Int (if t =? 1 then 1 else 0).
Proof. unfold LoadData.diagnosis_letter. now destruct (t =? 1). Qed.

(** Counting a name among column names. *)
Lemma named_absent (name : string) (l : list string) :
  ~ In name l -> filter (String.eqb name) l = [].
Proof.
  intros H. induction l as [| n l IH]; cbn; [reflexivity |].
  destruct (String.eqb_spec name n) as [-> | _].
  - destruct H. now left.
  - apply IH. intros Hin. apply H. now right.
Qed.

Lemma named_cons_other (n m : string) (l : list string) :
  n <> m -> filter (String.eqb n) (m :: l) = filter (String.eqb n) l.
Proof.
  intros Hne. cbn [filter].
  destruct (String.eqb_spec n m); [contradiction | reflexivity].
Qed.

Lemma named_once (name : string) (l : list string) :
  NoDup l -> (List.length (filter (String.eqb name) l) <= 1)%nat.
Proof.
  induction 1 as [| n l Hn _ IH]; cbn; [lia |].
  destruct (String.eqb_spec name n) as [-> | _]; [| exact IH].
  rewrite (named_absent n l Hn). cbn. lia.
Qed.

Lemma named_assign_other (n name : string) (cells : list cell)
    (cols : list (string * list cell)) :
  n <> name ->
  filter (String.eqb n) (map fst (assign name cells cols))
  = filter (String.eqb n) (map fst cols).
Proof.
  intros Hne.
  destruct (existsb (String.eqb name) (map fst cols)) eqn:E.
  - now rewrite (names_assign name cells cols E).
  - unfold assign. rewrite E, map_app, filter_app. cbn.
    destruct (String.eqb_spec n name); [contradiction | apply app_nil_r].
Qed.

Lemma named_assign_same (name : string) (cells : list cell)
    (cols : list (string * list cell)) :
  (List.length (filter (String.eqb name) (map fst cols)) <= 1)%nat ->
  List.length (filter (String.eqb name) (map fst (assign name cells cols)))
  = 1%nat.
Proof.
  intros Hle.
  destruct (existsb (String.eqb name) (map fst cols)) eqn:E.
  - rewrite (names_assign name cells cols E).
    apply existsb_exists in E as (n & Hin & En).
    apply String.eqb_eq in En. subst n.
    assert (In name (filter (String.eqb name) (map fst cols))).
    { apply filter_In. split; [exact Hin | apply String.eqb_refl]. }
    destruct (filter (String.eqb name) (map fst cols)) as [| x [| y r]];
      cbn in *; [contradiction | reflexivity | lia].
  - unfold assign. rewrite E, map_app, filter_app, length_app. cbn.
    rewrite String.eqb_refl.
    assert (Hnot : ~ In name (map fst cols)).
    { intros Hin. apply (listed_in (map fst cols) name) in Hin.
      unfold listed in Hin. rewrite E in Hin. discriminate. }
    now rewrite (named_absent name _ Hnot).
Qed.

Lemma assign_cells (P : string * list cell -> Prop) (name : string)
    (cells : list cell) (cols : list (string * list cell)) :
  Forall P cols -> (forall n, P (n, cells)) ->
  Forall P (assign name cells cols).
Proof.
  intros Hc Hp. unfold assign.
  destruct (existsb (String.eqb name) (map fst cols)).
  - induction Hc as [| c cols Hx _ IH]; cbn; constructor; trivial.
    destruct (String.eqb name (fst c)); [apply Hp | exact Hx].
  - apply Forall_app. split; [exact Hc |]. constructor; [apply Hp | constructor].
Qed.

(** The script on a dataset with at most one feature called
    [diagnosis]: the checks it goes through and the frame it writes. *)
Lemma create_unfold (b : LoadData.Bunch) :
  (List.length (filter (String.eqb "diagnosis") (LoadData.feature_names b))
   <= 1)%nat ->
  exists cols0,
    (List.length (LoadData.feature_names b) = width (LoadData.data b) ->
     map fst cols0 = LoadData.feature_names b) /\
    Forall (fun c => List.length (snd c)
                     = List.length (rows (LoadData.data b))) cols0 /\
    create_breast_cancer_csv b
    = if (List.length (LoadData.feature_names b)
          =? width (LoadData.data b))%nat then
        if (List.length (LoadData.target b)
            =? List.length (rows (LoadData.data b)))%nat then
          if listed (LoadData.feature_names b) "id" then
            Raise (ValueError "cannot insert id, already exists")
          else
            Ok (setitem_scalar "Unnamed: 32" Null
                  {| index_len := List.length (rows (LoadData.data b));
                     columns :=
                       ("id", map (fun i => Int (Z.of_nat i))
                                  (seq 0 (List.length (rows (LoadData.data b)))))
                         :: assign "diagnosis"
                              (map LoadData.diagnosis_letter (LoadData.target b))
                              cols0 |})
        else Raise (ValueError "Length of values does not match length of index")
      else Raise (ValueError "Shape of passed values does not match the columns").
Proof.
  intros Hone.
  set (cols0 := map (fun jn : nat * string =>
                       (snd jn, map (fun r => Num (nth (fst jn) r zero))
                                    (rows (LoadData.data b))))
                    (combine (seq 0 (List.length (LoadData.feature_names b)))
                             (LoadData.feature_names b))).
  assert (Hn0 : map fst cols0 = LoadData.feature_names b).
  { subst cols0.
    apply (names_DataFrame_init (LoadData.feature_names b)
             (fun j => map (fun r => Num (nth j r zero))
                           (rows (LoadData.data b)))). }
  exists cols0. split; [intros _; exact Hn0 |]. split.
  { apply Forall_forall. intros c Hin. subst cols0.
    apply in_map_iff in Hin as (jn & <- & _). cbn. now rewrite length_map. }
  unfold LoadData.create_breast_cancer_csv, DataFrame_init.
  fold cols0.
  destruct (List.length (LoadData.feature_names b) =? width (LoadData.data b))%nat;
    [| reflexivity].
  cbn [bind]. unfold setitem, occurrences, names. cbn [index_len columns].
  rewrite Hn0.
  assert (H1 : (1 <? List.length (filter (String.eqb "diagnosis")
                                    (LoadData.feature_names b)))%nat = false)
    by (apply Nat.ltb_ge; exact Hone).
  rewrite H1. rewrite length_map.
  destruct (List.length (LoadData.target b)
            =? List.length (rows (LoadData.data b)))%nat; [| reflexivity].
  cbn [bind]. unfold insert_first, has_column, names.
  cbn [set_column index_len columns].
  set (diag := map LoadData.diagnosis_letter (LoadData.target b)).
  assert (Hid : existsb (String.eqb "id") (map fst (assign "diagnosis" diag cols0))
                = listed (LoadData.feature_names b) "id").
  { unfold listed.
    destruct (existsb (String.eqb "id") (LoadData.feature_names b)) eqn:E.
    - apply (listed_in _ "id"). apply names_assign_any; [discriminate |].
      rewrite Hn0. now apply (listed_in _ "id").
    - destruct (existsb _ (map fst (assign "diagnosis" diag cols0))) eqn:E';
        [| reflexivity].
      apply (listed_in _ "id") in E'.
      apply names_assign_any in E'; [| discriminate].
      rewrite Hn0 in E'. apply (listed_in _ "id") in E'.
      unfold listed in E'. rewrite E in E'. discriminate. }
  rewrite Hid. destruct (listed (LoadData.feature_names b) "id"); [reflexivity |].
  rewrite length_map, length_seq, Nat.eqb_refl. cbn [bind].
  unfold value_counts_of, occurrences, names, setitem_scalar.
  cbn [set_column index_len columns].
  rewrite named_assign_other by discriminate.
  cbn [map fst]. rewrite named_cons_other by discriminate.
  rewrite named_assign_same by (rewrite Hn0; exact Hone).
  reflexivity.
Qed.
(** The frame written for a dataset whose feature names leave the three
    added names free. *)
Lemma create_result (b : LoadData.Bunch) (df : DataFrame) :
  (forall n, In n ["id"; "diagnosis"; "Unnamed: 32"] ->
             ~ In n (LoadData.feature_names b)) ->
  create_breast_cancer_csv b = Ok df ->
  List.length (LoadData.feature_names b) = width (LoadData.data b) /\
  List.length (LoadData.target b) = List.length (rows (LoadData.data b)) /\
  Forall (fun c => List.length (snd c) = index_len df) (columns df) /\
  index_len df = List.length (rows (LoadData.data b)) /\
  names df = ("id" :: LoadData.feature_names b
                ++ ["diagnosis"; "Unnamed: 32"])%list /\
  getitem "id" df
  = Ok (map (fun i => Int (Z.of_nat i))
            (seq 0 (List.length (rows (LoadData.data b))))) /\
  getitem "diagnosis" df
  = Ok (map LoadData.diagnosis_letter (LoadData.target b)) /\
  getitem "Unnamed: 32" df
  = Ok (repeat Null (List.length (rows (LoadData.data b)))).
Proof.
  intros Hfree.
  assert (Hone : (List.length (filter (String.eqb "diagnosis")
                                 (LoadData.feature_names b)) <= 1)%nat).
  { rewrite named_absent; [cbn; lia |]. apply Hfree. cbn. tauto. }
  destruct (create_unfold b Hone) as (cols0 & Hn0 & Hcells & ->).
  destruct (Nat.eqb_spec (List.length (LoadData.feature_names b))
              (width (LoadData.data b))) as [Hw | _]; [| discriminate].
  destruct (Nat.eqb_spec (List.length (LoadData.target b))
              (List.length (rows (LoadData.data b)))) as [Ht | _];
    [| discriminate].
  destruct (listed (LoadData.feature_names b) "id"); [discriminate |].
  specialize (Hn0 Hw).
  intros H; injection H as <-.
  set (diag := map LoadData.diagnosis_letter (LoadData.target b)).
  set (ids := map _ (seq 0 _)).
  assert (Hn1 : map fst (assign "diagnosis" diag cols0)
                = (LoadData.feature_names b ++ ["diagnosis"])%list).
  { rewrite names_assign_new; rewrite Hn0; [reflexivity |].
    apply Hfree. cbn. tauto. }
  set (cols2 := ("id", ids) :: assign "diagnosis" diag cols0).
  assert (Hn2 : map fst cols2
                = ("id" :: LoadData.feature_names b ++ ["diagnosis"])%list).
  { subst cols2. cbn. now rewrite Hn1. }
  assert (Hfresh : ~ In "Unnamed: 32" (map fst cols2)).
  { rewrite Hn2. intros [E | E]; [discriminate |].
    apply in_app_iff in E as [E | [E | []]]; [| discriminate].
    destruct (Hfree "Unnamed: 32"); [cbn; tauto | exact E]. }
  unfold setitem_scalar, set_column, getitem, names.
  cbn [index_len columns]. fold cols2.
  split; [exact Hw |]. split; [exact Ht |]. split; [| split; [reflexivity |]].
  - apply assign_cells; [| intros n; cbn; apply repeat_length].
    subst cols2. constructor; [subst ids; cbn; now rewrite length_map, length_seq |].
    apply assign_cells; [exact Hcells |].
    intros n. subst diag. cbn. now rewrite length_map.
  - split; [| split; [| split]].
    + rewrite names_assign_new by exact Hfresh. rewrite Hn2.
      cbn. now rewrite <- app_assoc.
    + rewrite find_column_assign_other by discriminate. reflexivity.
    + rewrite find_column_assign_other by discriminate.
      subst cols2. cbn [find_column]. cbn [String.eqb Ascii.eqb Bool.eqb].
      now rewrite find_column_assign.
    + now rewrite find_column_assign.
Qed.


(** X17: for a dataset whose parts fit together and whose feature names
    are distinct and none of [id], [diagnosis], [Unnamed: 32], the frame
    written has the columns [id], the features in their order, [diagnosis]
    and [Unnamed: 32], one cell per row in each; [id] counts the rows from
    0, [diagnosis] is 'M' where the target is 1 and 'B' elsewhere, and
    [Unnamed: 32] is all missing. *)
Theorem create_breast_cancer_csv_frame (b : LoadData.Bunch) :
  List.length (LoadData.feature_names b) = width (LoadData.data b) ->
  List.length (LoadData.target b) = List.length (rows (LoadData.data b)) ->
  NoDup (LoadData.feature_names b) ->
  (forall n, In n ["id"; "diagnosis"; "Unnamed: 32"] ->
             ~ In n (LoadData.feature_names b)) ->
  exists df,
    create_breast_cancer_csv b = Ok df /\
    well_formed df /\
    index_len df = List.length (rows (LoadData.data b)) /\
    names df = ("id" :: LoadData.feature_names b
                  ++ ["diagnosis"; "Unnamed: 32"])%list /\
    getitem "id" df
    = Ok (map (fun i => Int (Z.of_nat i))
              (seq 0 (List.length (rows (LoadData.data b))))) /\
    getitem "diagnosis" df
    = Ok (map (fun t => Str (if t =? 1 then "M" else "B"))
              (LoadData.target b)) /\
    getitem "Unnamed: 32" df
    = Ok (repeat Null (List.length (rows (LoadData.data b)))).
Proof.
  intros Hw Ht Hnd Hfree.
  assert (Hex : exists df, create_breast_cancer_csv b = Ok df).
  { destruct (create_unfold b (named_once "diagnosis" _ Hnd))
      as (cols0 & _ & _ & ->).
    rewrite Hw, Ht, !Nat.eqb_refl.
    destruct (listed (LoadData.feature_names b) "id") eqn:Hid; [| eauto].
    apply listed_in in Hid. destruct (Hfree "id"); [cbn; tauto | exact Hid]. }
  destruct Hex as [df Hc]. exists df.
  destruct (create_result b df Hfree Hc)
    as (_ & _ & Hcells & Hlen & Hnames & Hid & Hdiag & Hun).
  repeat split; trivial.
  rewrite Hnames. constructor.
  - intros Hin. apply in_app_iff in Hin as [Hin | [E | [E | []]]];
      try discriminate.
    destruct (Hfree "id"); [cbn; tauto | exact Hin].
  - apply NoDup_app; [exact Hnd | |].
    + constructor; [| constructor; [intros [] | constructor]].
      intros [E | []]. discriminate.
    + intros n Hn Hin. apply (Hfree n); [| exact Hn].
      cbn in Hin. cbn. tauto.
Qed.

(** X18: the two scripts fit together: on any frame that has the column
    names and the [diagnosis] column of the frame written, as the CSV file
    hands them on, the cleaning of the training script goes through; its
    feature columns are the dataset's feature names and its labels are 1
    where the target is 1 and 0 elsewhere. *)
Theorem created_csv_trains (b : LoadData.Bunch) (df df' : DataFrame) :
  (forall n, In n ["id"; "diagnosis"; "Unnamed: 32"] ->
             ~ In n (LoadData.feature_names b)) ->
  create_breast_cancer_csv b = Ok df ->
  well_formed df' ->
  names df' = names df ->
  getitem "diagnosis" df' = getitem "diagnosis" df ->
  exists X,
    Train.prepare df'
    = Ok (X, map (fun t => Int (if t =? 1 then 1 else 0)) (LoadData.target b))
    /\ names X = LoadData.feature_names b.
Proof.
  intros Hfree Hc _ Hn Hd.
  destruct (create_result b df Hfree Hc)
    as (_ & _ & _ & _ & Hnames & _ & Hdiag & _).
  rewrite Hdiag in Hd.
  rewrite (prepare_unfold df' _ Hd).
  rewrite map_map.
  rewrite (map_ext _ _ map_diagnosis_letter).
  assert (Hnn : existsb isnull
                  (map (fun t => Int (if t =? 1 then 1 else 0))
                       (LoadData.target b)) = false).
  { generalize (LoadData.target b) as ts. clear.
    induction ts as [| t ts IH]; [reflexivity | exact IH]. }
  rewrite Hnn. eexists. split; [reflexivity |].
  rewrite (prepared_names df' _ _ Hd). rewrite Hn, Hnames.
  cbn [filter listed existsb String.eqb Ascii.eqb Bool.eqb orb negb].
  rewrite filter_app.
  rewrite (filter_unlisted ["id"; "Unnamed: 32"; "diagnosis"]).
  - cbn. apply app_nil_r.
  - intros n Hin. apply Hfree. cbn in *. tauto.
Qed.

End FrameFacts.

(** ** From training to serving *)

Section TrainedService.

Variable lax_float : json -> option float.
Variable str_value : json -> string.
Variable error_dict : error_detail -> json.

(** X19: a service booted from the files of a successful training run
    answers every feature vector whose length is not the number of feature
    columns of the training CSV (its columns other than [id],
    [Unnamed: 32] and [diagnosis]) with 400 and both counts. *)
Theorem trained_service_rejects_other_lengths (df : Pandas.DataFrame)
    (sklearn : Pandas.DataFrame -> list Pandas.cell -> res Train.Fitted)
    (disk : Disk) (st : ServiceState) (fields : list (string * json))
    (xs : list float) :
  Pandas.well_formed df ->
  Train.main (Some (Ok df)) sklearn = Ok disk ->
  boot disk = Ok st ->
  has_features lax_float fields xs ->
  len xs <> len (filter (fun n => negb (Pandas.listed
                                          ["id"; "Unnamed: 32"; "diagnosis"] n))
                        (Pandas.names df)) ->
  predict lax_float str_value error_dict st (Parsed (JObj fields))
  = Ok (400,
        error_body
          ("Se esperaban "
             ++ str_int (len (filter
                                (fun n => negb (Pandas.listed
                                          ["id"; "Unnamed: 32"; "diagnosis"] n))
                                (Pandas.names df)))
             ++ " features, recibidas " ++ str_int (len xs))).
Proof.
  intros _ Hmain Hboot Hf Hlen.
  apply main_result in Hmain as (X & y & f & Hp & _ & ->).
  apply prepare_result in Hp as (diagnosis & Hd & _ & -> & _).
  rewrite <- (prepared_names df diagnosis
                (map Train.map_diagnosis diagnosis) Hd) in *.
  set (X := Pandas.drop_ignore _ _) in *.
  injection Hboot as <-.
  apply (predict_semantic_error lax_float str_value error_dict _ fields xs);
    [reflexivity | exact Hf |].
  apply (validate_features_length str_value _ xs (JInt (len (Pandas.names X)))).
  - reflexivity.
  - cbn. now apply Z.eqb_neq.
Qed.

End TrainedService.

(** ** The further properties at work on the samples *)

Lemma sample_frame_well_formed : Pandas.well_formed TrainSample.frame.
Proof.
  split.
  - cbn. repeat constructor; cbn; intuition discriminate.
  - repeat constructor.
Qed.

Lemma sample_other_frame_well_formed :
  Pandas.well_formed TrainSample.frame_other_label.
Proof.
  split.
  - cbn. repeat constructor; cbn; intuition discriminate.
  - repeat constructor.
Qed.

Lemma sample_bunch_names_free :
  forall n, In n ["id"; "diagnosis"; "Unnamed: 32"] ->
            ~ In n (LoadData.feature_names TrainSample.bunch).
Proof.
  intros n [<- | [<- | [<- | []]]]; cbn; intuition discriminate.
Qed.

Lemma predict_non_object_body_witness :
  predict Sample.lax_float Sample.str_value Sample.error_dict Sample.state
    (Parsed (JArr [JInt 1; JInt 2]))
  = Ok (500, error_body "Error interno del servidor").
Proof.
  apply (predict_non_object_body Sample.lax_float Sample.str_value
           Sample.error_dict Sample.state (JArr [JInt 1; JInt 2])).
  - reflexivity.
  - reflexivity.
  - discriminate.
Defined.

Lemma predict_pipeline_value_error_witness :
  predict Sample.lax_float Sample.str_value Sample.error_dict
    (TrainSample.state_with TrainSample.narrow_scaler)
    (Parsed (JObj (Sample.payload [JInt 1; JInt 2])))
  = Ok (400, error_body "X has 2 features, but StandardScaler is expecting 30 features as input.").
Proof.
  apply (predict_pipeline_value_error Sample.lax_float Sample.str_value
           Sample.error_dict
           (TrainSample.state_with TrainSample.narrow_scaler)
           TrainSample.narrow_scaler Sample.the_classifier (JInt 2)
           (Sample.payload [JInt 1; JInt 2]) [of_Z 1; of_Z 2]).
  - reflexivity.
  - reflexivity.
  - reflexivity.
  - reflexivity.
  - exists [JInt 1; JInt 2]. split; [reflexivity | repeat constructor].
  - reflexivity.
  - reflexivity.
  - left. reflexivity.
Defined.

Lemma predict_pipeline_internal_error_witness :
  predict Sample.lax_float Sample.str_value Sample.error_dict
    (TrainSample.state_with TrainSample.broken_scaler)
    (Parsed (JObj (Sample.payload [JInt 1; JInt 2])))
  = Ok (500, error_body "Error interno del servidor").
Proof.
  apply (predict_pipeline_internal_error Sample.lax_float Sample.str_value
           Sample.error_dict
           (TrainSample.state_with TrainSample.broken_scaler)
           TrainSample.broken_scaler Sample.the_classifier (JInt 2)
           (Sample.payload [JInt 1; JInt 2]) [of_Z 1; of_Z 2] TypeError).
  - reflexivity.
  - reflexivity.
  - reflexivity.
  - reflexivity.
  - exists [JInt 1; JInt 2]. split; [reflexivity | repeat constructor].
  - reflexivity.
  - reflexivity.
  - exact I.
  - left. reflexivity.
Defined.

Lemma health_check_loaded_witness :
  exists accuracy,
    health_check Sample.state
    = Ok (200, JObj [("status", JStr "ok");
                     ("message", JStr "API de diagnóstico de cáncer de mama");
                     ("model_loaded", JBool true);
                     ("model_accuracy", accuracy)]) /\
    (metadata_file Sample.disk = None -> accuracy = JStr "N/A") /\
    (forall fields,
        metadata_file Sample.disk = Some (Ok (JObj fields)) ->
        accuracy = match lookup "accuracy" fields with
                   | Some a => a
                   | None => JStr "N/A"
                   end).
Proof.
  apply (health_check_loaded Sample.disk Sample.state).
  - reflexivity.
  - reflexivity.
Defined.

Lemma predict_200_shape_witness :
  exists name c0 c1 n,
    JObj [("prediction", JStr "Maligno");
          ("confidence", JObj [("Benigno", JFloat (round4 Sample.quarter));
                               ("Maligno",
                                JFloat (round4 Sample.three_quarters))]);
          ("prediction_numeric", JInt 1)]
    = JObj [("prediction", JStr name);
            ("confidence", JObj [("Benigno", JFloat c0);
                                 ("Maligno", JFloat c1)]);
            ("prediction_numeric", JInt n)] /\
    (name = "Maligno" \/ name = "Benigno").
Proof.
  apply (predict_200_shape Sample.lax_float Sample.str_value
           Sample.error_dict Sample.state
           (Parsed (JObj (Sample.payload [JFloat Sample.quarter; JInt 2])))).
  reflexivity.
Defined.

Lemma predict_depends_on_features_only_witness :
  predict Sample.lax_float Sample.str_value Sample.error_dict Sample.state
    (Parsed (JObj [("features", JArr [JInt 1; JInt 2])]))
  = predict Sample.lax_float Sample.str_value Sample.error_dict Sample.state
      (Parsed (JObj [("patient", JStr "A-17");
                     ("features", JArr [JInt 1; JInt 2])])).
Proof.
  apply (predict_depends_on_features_only Sample.lax_float Sample.str_value
           Sample.error_dict Sample.state
           [("features", JArr [JInt 1; JInt 2])]
           [("patient", JStr "A-17"); ("features", JArr [JInt 1; JInt 2])]
           (JArr [JInt 1; JInt 2])).
  - reflexivity.
  - reflexivity.
Defined.

Lemma validation_errors_per_item_witness :
  (forall e,
      In e [{| err_kind := FloatType;
               err_loc := [LocField "features"; LocIndex 1];
               err_input := JNull |}] <->
      exists i v, nth_error [JInt 1; JNull] i = Some v /\
                  validate_float Sample.lax_float v = None /\
                  e = {| err_kind := FloatType;
                         err_loc := [LocField "features"; LocIndex i];
                         err_input := v |}) /\
  (List.length [{| err_kind := FloatType;
                   err_loc := [LocField "features"; LocIndex 1];
                   err_input := JNull |}]
   = List.length (filter (fun v => match validate_float Sample.lax_float v with
                                   | None => true
                                   | Some _ => false
                                   end) [JInt 1; JNull])).
Proof.
  apply (validation_errors_per_item Sample.lax_float
           (Sample.payload [JInt 1; JNull]) [JInt 1; JNull]).
  - reflexivity.
  - reflexivity.
Defined.

Lemma degraded_health_reports_no_accuracy_witness :
  exists st,
    boot Sample.disk_no_model = Ok st /\
    model_loaded st = false /\
    health_check st
    = Ok (503, JObj [("status", JStr "degraded");
                     ("message", JStr "API de diagnóstico de cáncer de mama");
                     ("model_loaded", JBool false);
                     ("model_accuracy", JStr "N/A")]).
Proof.
  apply (degraded_health_reports_no_accuracy Sample.disk_no_model).
  left. exists FileNotFoundError. reflexivity.
Defined.

Lemma prepare_labels_and_features_witness :
  (exists diagnosis,
      Pandas.getitem "diagnosis" TrainSample.frame = Ok diagnosis /\
      Forall2 (fun c l => (c = Pandas.Str "M" /\ l = Pandas.Int 1) \/
                          (c = Pandas.Str "B" /\ l = Pandas.Int 0))
              diagnosis [Pandas.Int 1; Pandas.Int 0]) /\
  Pandas.index_len TrainSample.features_frame
  = Pandas.index_len TrainSample.frame /\
  Pandas.names TrainSample.features_frame
  = filter (fun n => negb (Pandas.listed
                             ["id"; "Unnamed: 32"; "diagnosis"] n))
           (Pandas.names TrainSample.frame) /\
  (forall name, ~ In name ["id"; "Unnamed: 32"; "diagnosis"] ->
                Pandas.getitem name TrainSample.features_frame
                = Pandas.getitem name TrainSample.frame).
Proof.
  apply (prepare_labels_and_features TrainSample.frame).
  - exact sample_frame_well_formed.
  - reflexivity.
Defined.

Lemma prepare_rejects_other_values_witness :
  Train.prepare TrainSample.frame_other_label
  = Raise (ValueError "Valores nulos encontrados en diagnóstico").
Proof.
  apply (prepare_rejects_other_values TrainSample.frame_other_label
           [Pandas.Str "M"; Pandas.Str "benign"] (Pandas.Str "benign")).
  - exact sample_other_frame_well_formed.
  - reflexivity.
  - right. left. reflexivity.
  - discriminate.
  - discriminate.
Defined.

Lemma trained_service_witness :
  exists X y f st,
    Train.prepare TrainSample.frame = Ok (X, y) /\
    TrainSample.sklearn X y = Ok f /\
    boot TrainSample.trained_disk = Ok st /\
    model_loaded st = true /\
    model (globals st) = Some (Train.fitted_model f) /\
    scaler (globals st) = Some (Train.fitted_scaler f) /\
    expected_count st (JInt (len (Pandas.names X))) /\
    health_check st
    = Ok (200, JObj [("status", JStr "ok");
                     ("message", JStr "API de diagnóstico de cáncer de mama");
                     ("model_loaded", JBool true);
                     ("model_accuracy", JFloat (Train.accuracy f))]).
Proof.
  apply (trained_service TrainSample.frame TrainSample.sklearn
           TrainSample.trained_disk).
  - exact sample_frame_well_formed.
  - reflexivity.
Defined.

Lemma sample_bunch_names_distinct :
  NoDup (LoadData.feature_names TrainSample.bunch).
Proof. cbn. repeat constructor; cbn; intuition discriminate. Qed.


Lemma create_breast_cancer_csv_frame_witness :
  exists df,
    LoadData.create_breast_cancer_csv TrainSample.repeated_setitem
      TrainSample.repeated_label_error TrainSample.bunch = Ok df /\
    Pandas.well_formed df /\
    Pandas.index_len df = 2%nat /\
    Pandas.names df
    = ["id"; "mean radius"; "mean texture"; "diagnosis"; "Unnamed: 32"] /\
    Pandas.getitem "id" df = Ok [Pandas.Int 0; Pandas.Int 1] /\
    Pandas.getitem "diagnosis" df = Ok [Pandas.Str "M"; Pandas.Str "B"] /\
    Pandas.getitem "Unnamed: 32" df = Ok [Pandas.Null; Pandas.Null].
Proof.
  apply (create_breast_cancer_csv_frame TrainSample.repeated_setitem
           TrainSample.repeated_label_error TrainSample.bunch).
  - reflexivity.
  - reflexivity.
  - exact sample_bunch_names_distinct.
  - exact sample_bunch_names_free.
Defined.

Lemma created_csv_trains_witness :
  exists X,
    Train.prepare TrainSample.frame
    = Ok (X, [Pandas.Int 1; Pandas.Int 0]) /\
    Pandas.names X = ["mean radius"; "mean texture"].
Proof.
  apply (created_csv_trains TrainSample.repeated_setitem
           TrainSample.repeated_label_error TrainSample.bunch
           TrainSample.frame TrainSample.frame).
  - exact sample_bunch_names_free.
  - reflexivity.
  - exact sample_frame_well_formed.
  - reflexivity.
  - reflexivity.
Defined.

Lemma trained_service_rejects_other_lengths_witness :
  predict Sample.lax_float Sample.str_value Sample.error_dict
    TrainSample.trained_state
    (Parsed (JObj (Sample.payload [JInt 1; JInt 2; JInt 3])))
  = Ok (400,
        error_body
          ("Se esperaban "
             ++ str_int (len (filter
                                (fun n => negb (Pandas.listed
                                          ["id"; "Unnamed: 32"; "diagnosis"] n))
                                (Pandas.names TrainSample.frame)))
             ++ " features, recibidas "
             ++ str_int (len [of_Z 1; of_Z 2; of_Z 3]))).
Proof.
  apply (trained_service_rejects_other_lengths Sample.lax_float
           Sample.str_value Sample.error_dict TrainSample.frame
           TrainSample.sklearn TrainSample.trained_disk
           TrainSample.trained_state
           (Sample.payload [JInt 1; JInt 2; JInt 3])
           [of_Z 1; of_Z 2; of_Z 3]).
  - exact sample_frame_well_formed.
  - reflexivity.
  - reflexivity.
  - exists [JInt 1; JInt 2; JInt 3]. split; [reflexivity | repeat constructor].
  - discriminate.
Defined.
